(** * The media-transfer subsystem of wapi.go

    A shallow embedding of the MediaManager operations
    (GetMediaUrlById, DeleteMedia, UploadMedia, CreateResumableUploadSession,
    UploadResumableMedia, UploadMediaForTemplate) and of the FlowManager
    asset operations (UploadFlowJSON, GetFlowJSON).

    Every operation is a finite interaction with the remote service: a
    program of type [Prog A] lists the calls it places through the request
    executor and what it computes from each reply.  Go's [(value, error)]
    returns are kept as pairs, so that what is returned beside a non-nil
    error can be stated. *)

From Stdlib Require Import ZArith Strings.String Strings.Ascii Strings.Byte List.
From Stdlib Require Import DecimalString DecimalPos DecimalZ.
From stdpp Require Import base tactics option strings list gmap sorting.

(** ** Bytes and strings *)

(** Go's [[]byte]. *)
Definition bytes : Type := list byte.

(** The conversion [[]byte(s)]. *)
Definition bytes_of_string (s : string) : bytes := list_byte_of_string s.

(** The conversion [string(b)]. *)
Definition string_of_bytes (b : bytes) : string := string_of_list_byte b.

(** The two-byte line terminator of MIME and the double quote. *)
Definition CRLF : string := String "013" (String "010" "").

Definition quote : string := String "034" "".

(** [strconv.FormatInt(i, 10)] and the verb [%d]: the decimal numeral of a
    signed integer, with a leading minus sign when negative. *)
Definition FormatInt (i : Z) : string := NilZero.string_of_int (Z.to_int i).

(** Reading a decimal numeral back, as the receiver of a header does. *)
Definition ParseInt (s : string) : option Z :=
  Z.of_int <$> NilZero.int_of_string s.

(** [strings.Join([]string{a, b}, "/")] *)
Definition Join2 (a b : string) : string := a +:+ "/" +:+ b.

(** ** Errors *)

(** Go errors as this package builds them: [fmt.Errorf] without [%w] yields a
    plain message, with [%w] it yields a message that keeps the cause. *)
Inductive error : Type :=
| errorString (msg : string)
| wrapError (msg : string) (err : error).

(** [err.Error()] *)
Definition Error (e : error) : string :=
  match e with
  | errorString msg => msg
  | wrapError msg _ => msg
  end.

(** [errors.Unwrap(err)] *)
Definition Unwrap (e : error) : option error :=
  match e with
  | errorString _ => None
  | wrapError _ err => Some err
  end.

(** [fmt.Errorf(prefix + "%w", err)] *)
Definition Errorf_w (prefix : string) (err : error) : error :=
  wrapError (prefix +:+ Error err) err.

(** [fmt.Errorf(prefix + "%s", s)] *)
Definition Errorf_s (prefix : string) (s : string) : error :=
  errorString (prefix +:+ s).

(** [errors.Is(e, target)]: [target] is [e] or lies on its chain of causes. *)
Fixpoint Is (e target : error) : Prop :=
  e = target ∨
  match e with
  | errorString _ => False
  | wrapError _ err => Is err target
  end.

(** A fallible library call whose value is only read when it did not fail. *)
Inductive result (A : Type) : Type :=
| Ok (a : A)
| Err (e : error).
Arguments Ok {A} a.
Arguments Err {A} e.

(** ** Wire structures *)

Module MediaMetadata.
Record t : Type := mk {
  MessagingProduct : string;
  Url : string;
  MimeType : string;
  Sha256 : string;
  FileSize : Z;
  ID : string
}.
End MediaMetadata.

Module DeleteSuccessResponse.
Record t : Type := mk { Success : bool }.
End DeleteSuccessResponse.

(** The anonymous [struct { ID string `json:"id"` }] of UploadMedia. *)
Module UploadMediaResult.
Record t : Type := mk { ID : string }.
End UploadMediaResult.

Module ResumableUploadSession.
Record t : Type := mk { ID : string }.
End ResumableUploadSession.

Module ResumableUploadResult.
Record t : Type := mk { Handle : string }.
End ResumableUploadResult.

Module FlowValidationError.
Record t : Type := mk {
  Error : string;
  ErrorType : string;
  Message : string;
  LineStart : Z;
  LineEnd : Z;
  ColumnStart : Z;
  ColumnEnd : Z
}.
End FlowValidationError.

Module UploadFlowJSONResponse.
Record t : Type := mk {
  Success : bool;
  ValidationErrors : list FlowValidationError.t
}.
End UploadFlowJSONResponse.

Module CreateFlowResponse.
Record t : Type := mk {
  ID : string;
  Success : bool;
  ValidationErrors : list FlowValidationError.t
}.
End CreateFlowResponse.

Module UploadFlowJSONRequest.
Record t : Type := mk {
  Name : string;
  AssetType : string;
  File : string
}.
End UploadFlowJSONRequest.

(** A value stored in a [map[string]interface{}] request body. *)
Inductive jvalue : Type :=
| JInt (i : Z)
| JString (s : string).

(** [encoding/json] is a library of the Go distribution: decoding a response
    into a struct and encoding a request are taken as given, one decoder per
    target type.  A field that the response does not carry keeps Go's zero
    value (the empty string, [false], [0]). *)
Class Unmarshal (T : Type) : Type := json_Unmarshal : bytes → result T.

Class Marshal (T : Type) : Type := json_Marshal : T → result bytes.

(** ** HTTP and MIME headers *)

Definition is_lower (c : ascii) : bool :=
  (97 <=? nat_of_ascii c)%nat && (nat_of_ascii c <=? 122)%nat.

Definition is_upper (c : ascii) : bool :=
  (65 <=? nat_of_ascii c)%nat && (nat_of_ascii c <=? 90)%nat.

Definition is_digit (c : ascii) : bool :=
  (48 <=? nat_of_ascii c)%nat && (nat_of_ascii c <=? 57)%nat.

Fixpoint contains_char (c : ascii) (s : string) : bool :=
  match s with
  | EmptyString => false
  | String d s' => Ascii.eqb c d || contains_char c s'
  end.

Fixpoint all_chars (f : ascii → bool) (s : string) : bool :=
  match s with
  | EmptyString => true
  | String c s' => f c && all_chars f s'
  end.

Fixpoint any_char (f : ascii → bool) (s : string) : bool :=
  match s with
  | EmptyString => false
  | String c s' => f c || any_char f s'
  end.

(** The bytes allowed in a header field name (the token characters). *)
Definition validHeaderFieldByte (c : ascii) : bool :=
  is_lower c || is_upper c || is_digit c || contains_char c "!#$%&'*+-.^_`|~".

Fixpoint canonical_from (upper : bool) (s : string) : string :=
  match s with
  | EmptyString => EmptyString
  | String c s' =>
      let c' :=
        if upper && is_lower c then ascii_of_nat (nat_of_ascii c - 32)
        else if negb upper && is_upper c then ascii_of_nat (nat_of_ascii c + 32)
        else c in
      String c' (canonical_from (Ascii.eqb c' "-") s')
  end.

(** [textproto.CanonicalMIMEHeaderKey]: the first letter and every letter
    after a hyphen in upper case, the others in lower case; a key holding a
    byte that is no token character is left as it is. *)
Definition CanonicalMIMEHeaderKey (s : string) : string :=
  if all_chars validHeaderFieldByte s then canonical_from true s else s.

(** [h.Set(key, value)] of [http.Header] and [textproto.MIMEHeader], both a
    [map[string][]string] keyed by canonical names. *)
Definition Header_Set (key value : string) (h : gmap string (list string))
  : gmap string (list string) :=
  <[CanonicalMIMEHeaderKey key := [value]]> h.

(** [h.Get(key)]: the first value stored under the key, or the empty string. *)
Definition Header_Get (key : string) (h : gmap string (list string)) : string :=
  match h !! CanonicalMIMEHeaderKey key with
  | Some (v :: _) => v
  | _ => ""
  end.

(** An [io.Reader] read to its end: the bytes it yields, and the error that
    stopped the reading, if any. *)
Record Reader : Type := mkReader {
  rd_data : bytes;
  rd_err : option error
}.

(** [bytes.NewReader(b)] *)
Definition bytes_NewReader (b : bytes) : Reader := mkReader b None.

(** [io.ReadAll(r)] *)
Definition io_ReadAll (r : Reader) : bytes * option error := (rd_data r, rd_err r).

Record HttpRequest : Type := mkHttpRequest {
  req_Method : string;
  req_URL : string;
  req_Header : gmap string (list string);
  req_Body : bytes
}.

Record HttpResponse : Type := mkHttpResponse {
  StatusCode : Z;
  resp_Body : Reader
}.

Definition MethodGet : string := "GET".
Definition MethodPost : string := "POST".
Definition MethodDelete : string := "DELETE".

(** ** The multipart writer of mime/multipart

    The writer appends to an in-memory [bytes.Buffer].  Its state is kept as
    the parts written so far; [Writer_Bytes] gives the buffer's contents. *)

Record Part : Type := mkPart {
  p_header : gmap string (list string);
  p_content : bytes
}.

Record Writer : Type := mkWriter {
  boundary : string;
  parts : list Part;
  closed : bool
}.

(** [multipart.NewWriter(buf)], with the boundary it drew at random. *)
Definition NewWriter (b : string) : Writer := mkWriter b [] false.

(** The bytewise order of Go strings. *)
Definition string_le (a b : string) : Prop := String.leb a b = true.

#[global] Instance string_le_dec (a b : string) : Decision (string_le a b) :=
  decide (String.leb a b = true).

(** The keys of a header in the order [CreatePart] writes them. *)
Definition sorted_keys (h : gmap string (list string)) : list string :=
  merge_sort string_le (elements (dom h)).

Definition header_lines (h : gmap string (list string)) : string :=
  String.concat ""
    (flat_map (λ k, map (λ v, k +:+ ": " +:+ v +:+ CRLF) (default [] (h !! k)))
       (sorted_keys h)).

Definition render_part (b : string) (first : bool) (p : Part) : bytes :=
  bytes_of_string
    ((if first then "--" else CRLF +:+ "--") +:+ b +:+ CRLF
     +:+ header_lines (p_header p) +:+ CRLF)
  ++ p_content p.

Fixpoint render_parts (b : string) (first : bool) (ps : list Part) : bytes :=
  match ps with
  | [] => []
  | p :: ps' => render_part b first p ++ render_parts b false ps'
  end.

Definition closing_delimiter (b : string) : bytes :=
  bytes_of_string (CRLF +:+ "--" +:+ b +:+ "--" +:+ CRLF).

(** The contents of the buffer the writer writes to. *)
Definition Writer_Bytes (w : Writer) : bytes :=
  render_parts (boundary w) true (parts w)
  ++ (if closed w then closing_delimiter (boundary w) else []).

(** [w.CreatePart(header)] *)
Definition CreatePart (header : gmap string (list string)) (w : Writer) : result Writer :=
  Ok (mkWriter (boundary w) (parts w ++ [mkPart header []]) (closed w)).

(** [part.Write(d)] on the part that [CreatePart] returned last. *)
Definition Part_Write (d : bytes) (w : Writer) : result Writer :=
  match reverse (parts w) with
  | p :: before =>
      if closed w then Err (errorString "multipart: can't write to finished part")
      else Ok (mkWriter (boundary w)
                 (reverse before ++ [mkPart (p_header p) (p_content p ++ d)])
                 (closed w))
  | [] => Err (errorString "multipart: can't write to finished part")
  end.

(** The escaping of a field or file name inside the quotes of a
    Content-Disposition: a backslash before every backslash and quote.  The
    names this package passes hold neither. *)
Fixpoint escapeQuotes (s : string) : string :=
  match s with
  | EmptyString => EmptyString
  | String c s' =>
      if Ascii.eqb c "\" then String "\" (String "\" (escapeQuotes s'))
      else if Ascii.eqb c "034" then String "\" (String "034" (escapeQuotes s'))
      else String c (escapeQuotes s')
  end.

(** [w.CreateFormField(fieldname)] *)
Definition CreateFormField (fieldname : string) (w : Writer) : result Writer :=
  CreatePart
    (Header_Set "Content-Disposition"
       ("form-data; name=" +:+ quote +:+ escapeQuotes fieldname +:+ quote) ∅) w.

(** [w.WriteField(fieldname, value)] *)
Definition WriteField (fieldname value : string) (w : Writer) : result Writer :=
  match CreateFormField fieldname w with
  | Err err => Err err
  | Ok w => Part_Write (bytes_of_string value) w
  end.

(** [w.CreateFormFile(fieldname, filename)] *)
Definition CreateFormFile (fieldname filename : string) (w : Writer) : result Writer :=
  CreatePart
    (Header_Set "Content-Type" "application/octet-stream"
       (Header_Set "Content-Disposition"
          ("form-data; name=" +:+ quote +:+ escapeQuotes fieldname +:+ quote
           +:+ "; filename=" +:+ quote +:+ escapeQuotes filename +:+ quote) ∅)) w.

(** [w.Close()] *)
Definition Writer_Close (w : Writer) : result Writer :=
  Ok (mkWriter (boundary w) (parts w) true).

(** Whether a boundary holds a character that has to be quoted in a
    Content-Type (a space, a quote or a separator); the boundaries that
    [NewWriter] draws are hexadecimal and hold none. *)
Definition needs_quotes (b : string) : bool :=
  any_char (λ c, contains_char c ("()<>@,;:\" +:+ quote +:+ "/[]?= ")) b.

(** [w.FormDataContentType()] *)
Definition FormDataContentType (w : Writer) : string :=
  let b := boundary w in
  let b := if needs_quotes b then quote +:+ b +:+ quote else b in
  "multipart/form-data; boundary=" +:+ b.

(** [io.Copy(part, src)]: what was read is written to the part, and the
    error that stopped the reading is returned. *)
Definition io_Copy (src : Reader) (w : Writer) : result Writer :=
  match Part_Write (rd_data src) w with
  | Err err => Err err
  | Ok w => match rd_err src with Some err => Err err | None => Ok w end
  end.

(** ** The request executor *)

(** Modelled from the spec: the package request_client (RequestClient,
    ApiRequest, the constants REQUEST_PROTOCOL, BASE_URL and API_VERSION) is
    not among the sources.  The spec gives its contract as
    [execute(path, method, body?)] and
    [requestMultipart(method, path, multipartBody, contentType)], each
    answering the raw response or a transport error; the managers use it
    through NewApiRequest, SetBody, Execute, RequestMultipart and
    ApiAccessToken.  An ApiRequest is what [execute] is given. *)
Record ApiRequest : Type := mkApiRequest {
  Path : string;
  Method : string;
  Body : string
}.

(** [requester.NewApiRequest(path, method)] *)
Definition NewApiRequest (path method : string) : ApiRequest :=
  mkApiRequest path method "".

(** [apiRequest.SetBody(body)] *)
Definition SetBody (body : string) (r : ApiRequest) : ApiRequest :=
  mkApiRequest (Path r) (Method r) body.

(** Modelled from the spec: the constants and the access token of the
    package request_client, which is not among the sources ("a small set of
    process-wide, read-only configuration constants"); with them, the two
    functions of Go's library whose result is taken as given. *)
Class Config : Type := mkConfig {
  REQUEST_PROTOCOL : string;
  BASE_URL : string;
  API_VERSION : string;
  (** [mm.requester.ApiAccessToken()] *)
  ApiAccessToken : string;
  (** [url.Parse]: the error for a URL that does not parse, if any. *)
  url_Parse : string → option error;
  (** [filepath.Base] *)
  filepath_Base : string → string
}.

(** The calls that leave the process. *)
Inductive Call : Type :=
| Execute (r : ApiRequest)
| RequestMultipart (method path : string) (body : bytes) (contentType : string)
| Do (r : HttpRequest).

(** What each call answers: [Execute] and [RequestMultipart] a Go pair
    [(string, error)], [httpClient.Do] a response unless it failed. *)
Definition Reply (c : Call) : Type :=
  match c with
  | Execute _ => (string * option error)%type
  | RequestMultipart _ _ _ _ => (string * option error)%type
  | Do _ => result HttpResponse
  end.

(** A program: it returns, or places a call and goes on with the reply. *)
Inductive Prog (A : Type) : Type :=
| Ret (a : A)
| Vis (c : Call) (k : Reply c → Prog A).
Arguments Ret {A} a.
Arguments Vis {A} c k.

Fixpoint Prog_bind {A B : Type} (f : A → Prog B) (p : Prog A) : Prog B :=
  match p with
  | Ret a => f a
  | Vis c k => Vis c (λ r, Prog_bind f (k r))
  end.

#[global] Instance Prog_ret : MRet Prog := λ A a, Ret a.
#[global] Instance Prog_mbind : MBind Prog := λ A B f p, Prog_bind f p.

Definition call (c : Call) : Prog (Reply c) := Vis c Ret.

(** The remote side: it answers every call and moves to a new state. *)
Definition Remote (W : Type) : Type := ∀ c : Call, W → Reply c * W.

(** Running a program against a remote: its result and the remote's state. *)
Fixpoint run {W A : Type} (t : Remote W) (p : Prog A) (w : W) : A * W :=
  match p with
  | Ret a => (a, w)
  | Vis c k => let (r, w') := t c w in run t (k r) w'
  end.

(** The calls a program places against a remote, in order. *)
Fixpoint calls {W A : Type} (t : Remote W) (p : Prog A) (w : W) : list Call :=
  match p with
  | Ret _ => []
  | Vis c k => let (r, w') := t c w in c :: calls t (k r) w'
  end.

(** [http.NewRequest(method, url, body)]: an empty method stands for GET; it
    fails on a method that is no token and on a URL that does not parse, and
    sets no header. *)
Definition http_NewRequest `{Config} (method url : string) (body : Reader)
  : result HttpRequest :=
  let method := match method with EmptyString => MethodGet | _ => method end in
  if negb (all_chars validHeaderFieldByte method)
  then Err (errorString ("net/http: invalid method " +:+ quote +:+ method +:+ quote))
  else match url_Parse url with
       | Some err => Err err
       | None => Ok (mkHttpRequest method url ∅ (rd_data body))
       end.

(** [httpRequest.Header.Set(key, value)] *)
Definition Request_Header_Set (key value : string) (r : HttpRequest) : HttpRequest :=
  mkHttpRequest (req_Method r) (req_URL r)
    (Header_Set key value (req_Header r)) (req_Body r).

(** ** MediaManager (src/manager/flow_manager.go, second file) *)

Section MediaManager.
Context `{Config}.
Context `{!Unmarshal MediaMetadata.t} `{!Unmarshal DeleteSuccessResponse.t}.
Context `{!Unmarshal UploadMediaResult.t} `{!Unmarshal ResumableUploadSession.t}.
Context `{!Unmarshal ResumableUploadResult.t} `{!Marshal (gmap string jvalue)}.

Definition GetMediaUrlById (id : string) : Prog (string * option error) :=
  let apiRequest := NewApiRequest id MethodGet in
  '(rawResponse, err) ← call (Execute apiRequest);
  match err with
  | Some err => Ret ("", Some err)
  | None =>
      match json_Unmarshal (bytes_of_string rawResponse) with
      | Err err => Ret ("", Some (Errorf_w "failed to parse media metadata: " err))
      | Ok res =>
          if decide (MediaMetadata.Url res = "")
          then Ret ("", Some (Errorf_s "no media url found in response: " rawResponse))
          else Ret (MediaMetadata.Url res, None)
      end
  end.

Definition DeleteMedia (id : string) : Prog (string * option error) :=
  let apiRequest := NewApiRequest (Join2 "media" id) MethodDelete in
  '(rawResponse, err) ← call (Execute apiRequest);
  match err with
  | Some err => Ret ("", Some err)
  | None =>
      match json_Unmarshal (bytes_of_string rawResponse) with
      | Err err => Ret ("", Some (Errorf_w "failed to parse delete response: " err))
      | Ok res =>
          if negb (DeleteSuccessResponse.Success res)
          then Ret ("", Some (Errorf_s "media deletion failed or returned success=false: "
                                rawResponse))
          else Ret ("media deleted successfully", None)
      end
  end.

(** Step 1 of UploadMedia, "Build the multipart form in memory": the writer
    once closed, or the error UploadMedia returns.  [b] is the boundary that
    [multipart.NewWriter] drew. *)
Definition UploadMedia_form (b : string) (file : Reader) (filename mimeType : string)
  : result Writer :=
  let writer := NewWriter b in
  match WriteField "messaging_product" "whatsapp" writer with
  | Err err => Err (Errorf_w "failed to write field: " err)
  | Ok writer =>
      let partHeader : gmap string (list string) := ∅ in
      let partHeader :=
        Header_Set "Content-Disposition"
          ("form-data; name=" +:+ quote +:+ "file" +:+ quote +:+ "; filename="
           +:+ quote +:+ filepath_Base filename +:+ quote) partHeader in
      let partHeader := Header_Set "Content-Type" mimeType partHeader in
      match CreatePart partHeader writer with
      | Err err => Err (Errorf_w "failed to create multipart part: " err)
      | Ok writer =>
          match io_Copy file writer with
          | Err err => Err (Errorf_w "failed to copy file into part: " err)
          | Ok writer =>
              match Writer_Close writer with
              | Err err => Err (Errorf_w "failed to close writer: " err)
              | Ok writer => Ok writer
              end
          end
      end
  end.

Definition UploadMedia (b : string) (phoneNumberId : string) (file : Reader)
    (filename mimeType : string) : Prog (string * option error) :=
  match UploadMedia_form b file filename mimeType with
  | Err err => Ret ("", Some err)
  | Ok writer =>
      let apiPath := Join2 phoneNumberId "media" in
      let contentType := FormDataContentType writer in
      '(responseBody, err) ←
        call (RequestMultipart MethodPost apiPath (Writer_Bytes writer) contentType);
      match err with
      | Some err => Ret ("", Some (Errorf_w "error uploading media: " err))
      | None =>
          match json_Unmarshal (bytes_of_string responseBody) with
          | Err err => Ret ("", Some (Errorf_w "failed to parse JSON response: " err))
          | Ok result =>
              if decide (UploadMediaResult.ID result = "")
              then Ret ("", Some (Errorf_s "no media id in response: " responseBody))
              else Ret (UploadMediaResult.ID result, None)
          end
      end
  end.

(** The [body] of CreateResumableUploadSession, a [map[string]interface{}]. *)
Definition session_body (fileLength : Z) (fileType : string) : gmap string jvalue :=
  <["file_type" := JString fileType]> (<["file_length" := JInt fileLength]> ∅).

Definition CreateResumableUploadSession (appID : string) (fileLength : Z)
    (fileType : string) : Prog (string * option error) :=
  let path := appID +:+ "/uploads" in
  let body := session_body fileLength fileType in
  match json_Marshal body with
  | Err err => Ret ("", Some (Errorf_w "failed to marshal request body: " err))
  | Ok bodyJSON =>
      let apiRequest := NewApiRequest path MethodPost in
      let apiRequest := SetBody (string_of_bytes bodyJSON) apiRequest in
      '(rawResponse, err) ← call (Execute apiRequest);
      match err with
      | Some err => Ret ("", Some (Errorf_w "failed to create upload session: " err))
      | None =>
          match json_Unmarshal (bytes_of_string rawResponse) with
          | Err err =>
              Ret ("", Some (Errorf_w "failed to parse upload session response: " err))
          | Ok result =>
              if decide (ResumableUploadSession.ID result = "")
              then Ret ("", Some (Errorf_s "no upload session ID in response: " rawResponse))
              else Ret (ResumableUploadSession.ID result, None)
          end
      end
  end.

(** The request UploadResumableMedia builds before it sends it (lines
    465-478), or the error of [http.NewRequest]. *)
Definition UploadResumableMedia_request (sessionID : string) (fileData : bytes)
    (fileOffset : Z) : result HttpRequest :=
  let requestPath :=
    REQUEST_PROTOCOL +:+ "://" +:+ BASE_URL +:+ "/" +:+ API_VERSION +:+ "/" +:+ sessionID in
  match http_NewRequest MethodPost requestPath (bytes_NewReader fileData) with
  | Err err => Err (Errorf_w "failed to create request: " err)
  | Ok httpRequest =>
      let httpRequest :=
        Request_Header_Set "Authorization" ("OAuth " +:+ ApiAccessToken) httpRequest in
      let httpRequest :=
        Request_Header_Set "file_offset" (FormatInt fileOffset) httpRequest in
      Ok httpRequest
  end.

Definition UploadResumableMedia (sessionID : string) (fileData : bytes)
    (fileOffset : Z) : Prog (string * option error) :=
  match UploadResumableMedia_request sessionID fileData fileOffset with
  | Err err => Ret ("", Some err)
  | Ok httpRequest =>
      reply ← call (Do httpRequest);
      match reply with
      | Err err => Ret ("", Some (Errorf_w "failed to execute upload request: " err))
      | Ok response =>
          match io_ReadAll (resp_Body response) with
          | (_, Some err) => Ret ("", Some (Errorf_w "failed to read response body: " err))
          | (respBody, None) =>
              if (StatusCode response <? 200)%Z || (StatusCode response >=? 300)%Z
              then Ret ("", Some (errorString
                     ("upload failed with status " +:+ FormatInt (StatusCode response)
                      +:+ ": " +:+ string_of_bytes respBody)))
              else
                match json_Unmarshal respBody with
                | Err err => Ret ("", Some (Errorf_w "failed to parse upload response: " err))
                | Ok result =>
                    if decide (ResumableUploadResult.Handle result = "")
                    then Ret ("", Some (Errorf_s "no media handle in response: "
                                          (string_of_bytes respBody)))
                    else Ret (ResumableUploadResult.Handle result, None)
                end
          end
      end
  end.

Definition UploadMediaForTemplate (appID : string) (fileData : bytes) (fileType : string)
  : Prog (string * option error) :=
  '(sessionID, err) ←
    CreateResumableUploadSession appID (Z.of_nat (length fileData)) fileType;
  match err with
  | Some err => Ret ("", Some (Errorf_w "failed to create upload session: " err))
  | None =>
      '(handle, err) ← UploadResumableMedia sessionID fileData 0;
      match err with
      | Some err => Ret ("", Some (Errorf_w "failed to upload media: " err))
      | None => Ret (handle, None)
      end
  end.

(** The manual sequence the spec compares UploadMediaForTemplate with: a
    caller creates the session for the payload's length, stops at its error,
    and otherwise pushes the whole payload at offset 0. *)
Definition manual_two_step (appID : string) (fileData : bytes) (fileType : string)
  : Prog (string * option error) :=
  '(sessionID, err) ←
    CreateResumableUploadSession appID (Z.of_nat (length fileData)) fileType;
  match err with
  | Some err => Ret ("", Some err)
  | None => UploadResumableMedia sessionID fileData 0
  end.

End MediaManager.

(** ** FlowManager, the asset operations (src/unnamed/part_001) *)

Module part_001.
Section FlowManager.
Context `{!Unmarshal UploadFlowJSONResponse.t}.

(** "Build multipart form data": the writer once closed, or the error
    UploadFlowJSON returns.  [b] is the boundary that [multipart.NewWriter]
    drew. *)
Definition UploadFlowJSON_form (b : string) (flowJSON : string) : result Writer :=
  let writer := NewWriter b in
  match WriteField "name" "flow.json" writer with
  | Err err => Err (Errorf_w "failed to write 'name' field: " err)
  | Ok writer =>
      match WriteField "asset_type" "FLOW_JSON" writer with
      | Err err => Err (Errorf_w "failed to write 'asset_type' field: " err)
      | Ok writer =>
          match CreateFormFile "file" "flow.json" writer with
          | Err err => Err (Errorf_w "failed to create form file: " err)
          | Ok writer =>
              match Part_Write (bytes_of_string flowJSON) writer with
              | Err err => Err (Errorf_w "failed to write flow JSON content: " err)
              | Ok writer =>
                  match Writer_Close writer with
                  | Err err => Err (Errorf_w "failed to close multipart writer: " err)
                  | Ok writer => Ok writer
                  end
              end
          end
      end
  end.

Definition UploadFlowJSON (b : string) (flowID flowJSON : string)
  : Prog (option UploadFlowJSONResponse.t * option error) :=
  match UploadFlowJSON_form b flowJSON with
  | Err err => Ret (None, Some err)
  | Ok writer =>
      let path := Join2 flowID "assets" in
      '(response, err) ←
        call (RequestMultipart MethodPost path (Writer_Bytes writer)
                (FormDataContentType writer));
      match err with
      | Some err => Ret (None, Some (Errorf_w "failed to upload flow JSON: " err))
      | None =>
          match json_Unmarshal (bytes_of_string response) with
          | Err err => Ret (None, Some (Errorf_w "failed to unmarshal response: " err))
          | Ok result => Ret (Some result, None)
          end
      end
  end.

Definition GetFlowJSON (flowID : string) : Prog (string * option error) :=
  let apiRequest := NewApiRequest (Join2 flowID "assets") MethodGet in
  '(response, err) ← call (Execute apiRequest);
  match err with
  | Some err => Ret ("", Some err)
  | None => Ret (response, None)
  end.

End FlowManager.
End part_001.

(** ** FlowManager, the asset upload of src/manager/flow_manager.go

    The first file of src/manager/flow_manager.go declares the same method
    with a JSON request body. *)

Module flow_manager.
Section FlowManager.
Context `{!Marshal UploadFlowJSONRequest.t} `{!Unmarshal CreateFlowResponse.t}.

Definition UploadFlowJSON (flowID flowJSON : string)
  : Prog (option CreateFlowResponse.t * option error) :=
  let apiRequest := NewApiRequest (Join2 flowID "assets") MethodPost in
  let body := UploadFlowJSONRequest.mk "flow.json" "FLOW_JSON" flowJSON in
  match json_Marshal body with
  | Err err => Ret (None, Some (Errorf_w "failed to marshal request: " err))
  | Ok jsonBody =>
      let apiRequest := SetBody (string_of_bytes jsonBody) apiRequest in
      '(response, err) ← call (Execute apiRequest);
      match err with
      | Some err => Ret (None, Some err)
      | None =>
          match json_Unmarshal (bytes_of_string response) with
          | Err err => Ret (None, Some (Errorf_w "failed to unmarshal response: " err))
          | Ok result => Ret (Some result, None)
          end
      end
  end.

End FlowManager.
End flow_manager.

(** ** A mock environment

    Concrete stand-ins for what is taken as given above, small enough to
    run: a Unix [filepath.Base], decoders for the one-field responses of the
    remote service, and scripted remotes. *)

Fixpoint after_last_slash (acc l : list ascii) : list ascii :=
  match l with
  | [] => acc
  | c :: l' =>
      if Ascii.eqb c "/" then after_last_slash [] l'
      else after_last_slash (acc ++ [c]) l'
  end.

Fixpoint drop_slashes (l : list ascii) : list ascii :=
  match l with
  | [] => []
  | c :: l' => if Ascii.eqb c "/" then drop_slashes l' else l
  end.

(** [filepath.Base] where the separator is the slash. *)
Definition unix_Base (path : string) : string :=
  match path with
  | EmptyString => "."
  | _ =>
      match reverse (drop_slashes (reverse (list_ascii_of_string path))) with
      | [] => "/"
      | l => string_of_list_ascii (after_last_slash [] l)
      end
  end.

Definition is_control (c : ascii) : bool :=
  (nat_of_ascii c <? 32)%nat || (nat_of_ascii c =? 127)%nat.

Definition mock_config : Config := {|
  REQUEST_PROTOCOL := "https";
  BASE_URL := "graph.facebook.com";
  API_VERSION := "v21.0";
  ApiAccessToken := "TOKEN";
  url_Parse := λ u,
    if any_char is_control u
    then Some (errorString "net/url: invalid control character in URL")
    else None;
  filepath_Base := unix_Base
|}.

Fixpoint strip_prefix (p s : string) : option string :=
  match p, s with
  | EmptyString, _ => Some s
  | String a p', String b s' => if Ascii.eqb a b then strip_prefix p' s' else None
  | String _ _, EmptyString => None
  end.

Definition strip_suffix (p s : string) : option string :=
  match strip_prefix (string_of_list_ascii (reverse (list_ascii_of_string p)))
          (string_of_list_ascii (reverse (list_ascii_of_string s))) with
  | Some r => Some (string_of_list_ascii (reverse (list_ascii_of_string r)))
  | None => None
  end.

(** The text of a JSON object with one string field. *)
Definition json_object1 (key value : string) : string :=
  "{" +:+ quote +:+ key +:+ quote +:+ ":" +:+ quote +:+ value +:+ quote +:+ "}".

(** The text of a JSON object with one boolean field. *)
Definition json_flag (key : string) (value : bool) : string :=
  "{" +:+ quote +:+ key +:+ quote +:+ ":" +:+ (if value then "true" else "false") +:+ "}".

(** A decoder for the objects [{}] and [{"key":"value"}] (no escapes). *)
Definition decode_string_field (key : string) (b : bytes) : result string :=
  let s := string_of_bytes b in
  if decide (s = "{}") then Ok ""
  else
    match strip_prefix ("{" +:+ quote +:+ key +:+ quote +:+ ":" +:+ quote) s with
    | Some rest =>
        match strip_suffix (quote +:+ "}") rest with
        | Some value =>
            if contains_char "034" value
            then Err (errorString "invalid character after object key:value pair")
            else Ok value
        | None => Err (errorString "unexpected end of JSON input")
        end
    | None => Err (errorString "invalid character looking for beginning of value")
    end.

(** A decoder for the objects [{}], [{"key":true}] and [{"key":false}]. *)
Definition decode_flag (key : string) (b : bytes) : result bool :=
  let s := string_of_bytes b in
  if decide (s = "{}") then Ok false
  else if decide (s = json_flag key true) then Ok true
  else if decide (s = json_flag key false) then Ok false
  else Err (errorString "invalid character looking for beginning of value").

Definition mock_Unmarshal_MediaMetadata : Unmarshal MediaMetadata.t := λ b,
  match decode_string_field "url" b with
  | Ok url => Ok (MediaMetadata.mk "" url "" "" 0 "")
  | Err e => Err e
  end.

Definition mock_Unmarshal_DeleteSuccessResponse : Unmarshal DeleteSuccessResponse.t := λ b,
  match decode_flag "success" b with
  | Ok f => Ok (DeleteSuccessResponse.mk f)
  | Err e => Err e
  end.

Definition mock_Unmarshal_UploadMediaResult : Unmarshal UploadMediaResult.t := λ b,
  match decode_string_field "id" b with
  | Ok id => Ok (UploadMediaResult.mk id)
  | Err e => Err e
  end.

Definition mock_Unmarshal_ResumableUploadSession : Unmarshal ResumableUploadSession.t := λ b,
  match decode_string_field "id" b with
  | Ok id => Ok (ResumableUploadSession.mk id)
  | Err e => Err e
  end.

Definition mock_Unmarshal_ResumableUploadResult : Unmarshal ResumableUploadResult.t := λ b,
  match decode_string_field "h" b with
  | Ok h => Ok (ResumableUploadResult.mk h)
  | Err e => Err e
  end.

Definition mock_Unmarshal_UploadFlowJSONResponse : Unmarshal UploadFlowJSONResponse.t := λ b,
  match decode_flag "success" b with
  | Ok f => Ok (UploadFlowJSONResponse.mk f [])
  | Err e => Err e
  end.

Definition mock_Unmarshal_CreateFlowResponse : Unmarshal CreateFlowResponse.t := λ b,
  match decode_flag "success" b with
  | Ok f => Ok (CreateFlowResponse.mk "" f [])
  | Err e => Err e
  end.

Definition mock_encode_jvalue (v : jvalue) : string :=
  match v with
  | JInt i => FormatInt i
  | JString s => quote +:+ escapeQuotes s +:+ quote
  end.

(** An encoder of a request map: the keys in bytewise order. *)
Definition mock_Marshal_map : Marshal (gmap string jvalue) := λ m,
  Ok (bytes_of_string
        ("{" +:+ String.concat ","
                   (map (λ k, quote +:+ k +:+ quote +:+ ":"
                              +:+ from_option mock_encode_jvalue "null" (m !! k))
                      (merge_sort string_le (elements (dom m))))
         +:+ "}")).

Definition mock_Marshal_UploadFlowJSONRequest : Marshal UploadFlowJSONRequest.t := λ r,
  Ok (bytes_of_string
        ("{" +:+ quote +:+ "name" +:+ quote +:+ ":"
         +:+ mock_encode_jvalue (JString (UploadFlowJSONRequest.Name r))
         +:+ "," +:+ quote +:+ "asset_type" +:+ quote +:+ ":"
         +:+ mock_encode_jvalue (JString (UploadFlowJSONRequest.AssetType r))
         +:+ "," +:+ quote +:+ "file" +:+ quote +:+ ":"
         +:+ mock_encode_jvalue (JString (UploadFlowJSONRequest.File r))
         +:+ "}")).

(** A file whose reading stops with an error after two bytes. *)
Definition broken_file : Reader :=
  mkReader (bytes_of_string "PN") (Some (errorString "unexpected EOF")).

(** A remote that answers by the call alone and counts the calls it got. *)
Definition scripted (answer : ∀ c : Call, Reply c) : Remote nat :=
  λ c n, (answer c, S n).

(** The scenario of the spec: app "A1" gets the session "sess_123", the push
    to that session the handle "4::abc"; media "M1" has a URL and can be
    deleted, media "M2" has no URL and cannot. *)
Definition scenario_answer (c : Call) : Reply c :=
  match c with
  | Execute r =>
      if decide (Path r = "A1/uploads") then (json_object1 "id" "sess_123", None)
      else if decide (Path r = "M1") then (json_object1 "url" "https://cdn.example/m1", None)
      else if decide (Path r = "M2") then ("{}", None)
      else if decide (Path r = "media/M1") then (json_flag "success" true, None)
      else if decide (Path r = "media/M2") then (json_flag "success" false, None)
      else ("", Some (errorString "unsupported request"))
  | RequestMultipart _ path _ _ =>
      if decide (path = "P1/media") then (json_object1 "id" "media_1", None)
      else ("", Some (errorString "unsupported request"))
  | Do r =>
      if decide (req_URL r = "https://graph.facebook.com/v21.0/sess_123")
      then Ok (mkHttpResponse 200 (bytes_NewReader (bytes_of_string (json_object1 "h" "4::abc"))))
      else Ok (mkHttpResponse 404 (bytes_NewReader (bytes_of_string "not found")))
  end.

Definition scenario : Remote nat := scripted scenario_answer.

(** The part of a form that carries the file: the first one whose
    Content-Disposition names the field "file". *)
Definition is_file_part (p : Part) : bool :=
  match p_header p !! "Content-Disposition" with
  | Some (v :: _) =>
      match strip_prefix ("form-data; name=" +:+ quote +:+ "file" +:+ quote) v with
      | Some _ => true
      | None => false
      end
  | _ => false
  end.

Definition file_content (w : Writer) : option bytes :=
  p_content <$> List.find is_file_part (parts w).

(** A remote echoes a form posted to [path] when, once it has accepted the
    form, a GET on the same path answers the content of the form's file
    part. *)
Definition echoes {W : Type} (t : Remote W) (path : string) (writer : Writer) : Prop :=
  ∀ (w w' : W) (reply : string * option error) (d : bytes),
    t (RequestMultipart MethodPost path (Writer_Bytes writer)
         (FormDataContentType writer)) w = (reply, w') →
    reply.2 = None →
    file_content writer = Some d →
    ∃ w'', t (Execute (NewApiRequest path MethodGet)) w' = ((string_of_bytes d, None), w'').

(** The lengths of what an asset form puts before and after the content of
    its file part; they depend on the boundary alone. *)
Definition asset_framing (b : string) : nat * nat :=
  match part_001.UploadFlowJSON_form b "" with
  | Ok w => (length (Writer_Bytes w) - length (closing_delimiter b),
             length (closing_delimiter b))
  | Err _ => (0, 0)
  end.

Definition file_of_asset_form (b : string) (body : bytes) : bytes :=
  let (pre, post) := asset_framing b in
  take (length body - pre - post) (drop pre body).

(** A mock remote that keeps, per path, the document of the asset form
    posted there last, and answers a GET with it. *)
Definition echo : Remote (gmap string string) := λ c,
  match c return gmap string string → Reply c * gmap string string with
  | Execute r => λ w,
      if decide (Method r = MethodGet)
      then ((default "" (w !! Path r), None), w)
      else (("", Some (errorString "unsupported request")), w)
  | RequestMultipart method path body contentType => λ w,
      match strip_prefix "multipart/form-data; boundary=" contentType with
      | Some b =>
          ((json_flag "success" true, None),
            <[path := string_of_bytes (file_of_asset_form b body)]> w)
      | None => (("", Some (errorString "unsupported media type")), w)
      end
  | Do r => λ w, (Err (errorString "unsupported request"), w)
  end.

(** Go's test [err != nil]. *)
Definition failed {A : Type} (out : A * option error) : Prop := out.2 ≠ None.

(** An operation returns nothing beside an error. *)
Definition empty_on_error (out : string * option error) : Prop :=
  failed out → out.1 = "".

(** The convenience call agrees with the manual sequence: the same string,
    no error when the manual sequence has none, and otherwise an error that
    wraps the manual one, so that [errors.Unwrap] gives it back. *)
Definition agrees (convenience manual : string * option error) : Prop :=
  convenience.1 = manual.1 ∧
  match manual.2 with
  | None => convenience.2 = None
  | Some err => ∃ err', convenience.2 = Some err' ∧ Unwrap err' = Some err
  end.

Section PushOutcome.
Context `{Config} {W : Type} (t : Remote W).

(** The HTTP layer failed on a push: the request could not be built, the
    exchange failed, or the body of the response could not be read. *)
Definition transport_failed (w : W) (sessionID : string) (fileData : bytes)
    (fileOffset : Z) : Prop :=
  match UploadResumableMedia_request sessionID fileData fileOffset with
  | Err _ => True
  | Ok req =>
      match (t (Do req) w).1 with
      | Err _ => True
      | Ok response => rd_err (resp_Body response) ≠ None
      end
  end.

(** The remote answered the push with this status and this body. *)
Definition answered (w : W) (sessionID : string) (fileData : bytes) (fileOffset : Z)
    (status : Z) (body : bytes) : Prop :=
  ∃ req response,
    UploadResumableMedia_request sessionID fileData fileOffset = Ok req ∧
    (t (Do req) w).1 = Ok response ∧
    StatusCode response = status ∧
    resp_Body response = mkReader body None.

End PushOutcome.

(** ** What the remote failed with *)

(** The error a reply carries, if any. *)
Definition reply_error (c : Call) : Reply c → option error :=
  match c with
  | Execute _ => λ r, r.2
  | RequestMultipart _ _ _ _ => λ r, r.2
  | Do _ => λ r, match r with Ok _ => None | Err e => Some e end
  end.

(** The errors the remote answered with during a run, in order. *)
Fixpoint remote_errors {W A : Type} (t : Remote W) (p : Prog A) (w : W) : list error :=
  match p with
  | Ret _ => []
  | Vis c k =>
      let (r, w') := t c w in
      option_list (reply_error c r) ++ remote_errors t (k r) w'
  end.

(** ** FlowManager, the flow operations

    Create, FetchAll, Update, Publish, Deprecate and Delete read the same in
    src/manager/flow_manager.go and in src/unnamed/part_001. *)

Definition FlowCategory : Type := string.

Definition FlowCategorySignUp : FlowCategory := "SIGN_UP".
Definition FlowCategorySignIn : FlowCategory := "SIGN_IN".
Definition FlowCategoryAppointmentBooking : FlowCategory := "APPOINTMENT_BOOKING".
Definition FlowCategoryLeadGeneration : FlowCategory := "LEAD_GENERATION".
Definition FlowCategoryContactUs : FlowCategory := "CONTACT_US".
Definition FlowCategoryCustomerSupport : FlowCategory := "CUSTOMER_SUPPORT".
Definition FlowCategorySurvey : FlowCategory := "SURVEY".
Definition FlowCategoryOther : FlowCategory := "OTHER".

Definition FlowStatus : Type := string.

Definition FlowStatusDraft : FlowStatus := "DRAFT".
Definition FlowStatusPublished : FlowStatus := "PUBLISHED".
Definition FlowStatusDeprecated : FlowStatus := "DEPRECATED".
Definition FlowStatusBlocked : FlowStatus := "BLOCKED".
Definition FlowStatusThrottled : FlowStatus := "THROTTLED".

Module FlowPreview.
Record t : Type := mk {
  PreviewURL : string;
  ExpiresAt : string
}.
End FlowPreview.

Module FlowHealthStatusEntity.
Record t : Type := mk {
  EntityType : string;
  ID : string;
  CanSend : bool;
  Errors : list string;
  AdditionalInfo : string
}.
End FlowHealthStatusEntity.

Module FlowHealthStatus.
Record t : Type := mk {
  CanSend : bool;
  Entities : list FlowHealthStatusEntity.t
}.
End FlowHealthStatus.

Module FlowNode.
Record t : Type := mk {
  ID : string;
  Name : string;
  Status : FlowStatus;
  Categories : list FlowCategory;
  ValidationErrors : list FlowValidationError.t;
  JSONVersion : string;
  DataAPIVersion : string;
  EndpointURI : string;
  Preview : option FlowPreview.t;
  HealthStatus : option FlowHealthStatus.t
}.
End FlowNode.

(** [Paging] has the type internal.WhatsAppBusinessApiPaginationMeta, which
    is not among the sources: the record is given for any such type. *)
Module FlowsListResponse.
Record t (PaginationMeta : Type) : Type := mk {
  Data : list FlowNode.t;
  Paging : PaginationMeta
}.
End FlowsListResponse.

Module CreateFlowRequest.
Record t : Type := mk {
  Name : string;
  Categories : list FlowCategory;
  FlowJSON : string;
  Publish : bool;
  CloneFlowID : string;
  EndpointURI : string
}.
End CreateFlowRequest.

Module UpdateFlowRequest.
Record t : Type := mk {
  Name : string;
  Categories : list FlowCategory;
  EndpointURI : string
}.
End UpdateFlowRequest.

Module FlowManagerConfig.
Record t : Type := mk {
  BusinessAccountId : string;
  ApiAccessToken : string
}.
End FlowManagerConfig.

Module FlowManager.

(** The fields of the manager beside its requester, which is the request
    executor every program runs against. *)
Record t : Type := mk {
  businessAccountId : string;
  apiAccessToken : string
}.

Definition NewFlowManager (config : FlowManagerConfig.t) : t :=
  mk (FlowManagerConfig.BusinessAccountId config) (FlowManagerConfig.ApiAccessToken config).

Section Operations.
Context {PaginationMeta : Type}.
Context `{!Marshal CreateFlowRequest.t} `{!Marshal UpdateFlowRequest.t}.
Context `{!Unmarshal CreateFlowResponse.t}.
Context `{!Unmarshal (FlowsListResponse.t PaginationMeta)}.

Definition Create (m : t) (req : CreateFlowRequest.t)
  : Prog (option CreateFlowResponse.t * option error) :=
  let apiRequest := NewApiRequest (Join2 (businessAccountId m) "flows") MethodPost in
  match json_Marshal req with
  | Err err => Ret (None, Some (Errorf_w "failed to marshal request: " err))
  | Ok jsonBody =>
      let apiRequest := SetBody (string_of_bytes jsonBody) apiRequest in
      '(response, err) ← call (Execute apiRequest);
      match err with
      | Some err => Ret (None, Some err)
      | None =>
          match json_Unmarshal (bytes_of_string response) with
          | Err err => Ret (None, Some (Errorf_w "failed to unmarshal response: " err))
          | Ok result => Ret (Some result, None)
          end
      end
  end.

Definition FetchAll (m : t)
  : Prog (option (FlowsListResponse.t PaginationMeta) * option error) :=
  let apiRequest := NewApiRequest (Join2 (businessAccountId m) "flows") MethodGet in
  '(response, err) ← call (Execute apiRequest);
  match err with
  | Some err => Ret (None, Some err)
  | None =>
      match json_Unmarshal (bytes_of_string response) with
      | Err err => Ret (None, Some (Errorf_w "failed to unmarshal response: " err))
      | Ok result => Ret (Some result, None)
      end
  end.

Definition Update (m : t) (flowID : string) (req : UpdateFlowRequest.t)
  : Prog (option error) :=
  let apiRequest := NewApiRequest flowID MethodPost in
  match json_Marshal req with
  | Err err => Ret (Some (Errorf_w "failed to marshal request: " err))
  | Ok jsonBody =>
      let apiRequest := SetBody (string_of_bytes jsonBody) apiRequest in
      '(_, err) ← call (Execute apiRequest);
      Ret err
  end.

Definition Publish (m : t) (flowID : string) : Prog (option error) :=
  let apiRequest := NewApiRequest (Join2 flowID "publish") MethodPost in
  '(_, err) ← call (Execute apiRequest);
  Ret err.

Definition Deprecate (m : t) (flowID : string) : Prog (option error) :=
  let apiRequest := NewApiRequest (Join2 flowID "deprecate") MethodPost in
  '(_, err) ← call (Execute apiRequest);
  Ret err.

Definition Delete (m : t) (flowID : string) : Prog (option error) :=
  let apiRequest := NewApiRequest flowID MethodDelete in
  '(_, err) ← call (Execute apiRequest);
  Ret err.

End Operations.
End FlowManager.

(** ** The flow message of package components (src/unnamed/part_000) *)

Module components.

Definition FlowMessageMode : Type := string.
Definition FlowMessageModeDraft : FlowMessageMode := "draft".
Definition FlowMessageModePublished : FlowMessageMode := "published".

Definition FlowAction : Type := string.
Definition FlowActionNavigate : FlowAction := "navigate".
Definition FlowActionDataExchange : FlowAction := "data_exchange".

Definition FlowMessageHeaderType : Type := string.
Definition FlowMessageHeaderTypeText : FlowMessageHeaderType := "text".

Module FlowActionPayload.
Record t : Type := mk {
  Screen : string;
  Data : gmap string jvalue
}.
End FlowActionPayload.

Module FlowMessageActionParams.
Record t : Type := mk {
  FlowMessageVersion : string;
  FlowID : string;
  FlowName : string;
  FlowCTA : string;
  FlowToken : string;
  FlowAction : FlowAction;
  FlowActionPayload : option FlowActionPayload.t;
  Mode : FlowMessageMode
}.
End FlowMessageActionParams.

Module FlowMessageAction.
Record t : Type := mk {
  Name : string;
  Parameters : FlowMessageActionParams.t
}.
End FlowMessageAction.

Module FlowMessageBody.
Record t : Type := mk { Text : string }.
End FlowMessageBody.

Module FlowMessageFooter.
Record t : Type := mk { Text : string }.
End FlowMessageFooter.

Module FlowMessageHeader.
Record t : Type := mk {
  Type_ : FlowMessageHeaderType;
  Text : string
}.
End FlowMessageHeader.

Module FlowMessage.
Record t : Type := mk {
  Type_ : string;
  Header : option FlowMessageHeader.t;
  Body : FlowMessageBody.t;
  Footer : option FlowMessageFooter.t;
  Action : FlowMessageAction.t
}.
End FlowMessage.

Module FlowMessageParams.
Record t : Type := mk {
  BodyText : string;
  FlowID : string;
  FlowName : string;
  FlowCTA : string;
  FlowMessageVersion : string
}.
End FlowMessageParams.

(** What the package takes from files that are not among the sources: the
    constant InteractiveMessageTypeFlow, and the validator of package
    internal, [internal.GetValidator().Struct(params)], with the error it
    answers for parameters it rejects. *)
Class Components : Type := mkComponents {
  InteractiveMessageTypeFlow : string;
  validate_Struct : FlowMessageParams.t → option error
}.

Section FlowMessageOperations.
Context `{Components}.

Definition NewFlowMessage (params : FlowMessageParams.t)
  : option FlowMessage.t * option error :=
  match validate_Struct params with
  | Some err => (None, Some (errorString ("error validating params: " +:+ Error err)))
  | None =>
      if decide (FlowMessageParams.FlowID params = ""
                 ∧ FlowMessageParams.FlowName params = "")
      then (None, Some (errorString "either FlowID or FlowName is required"))
      else
        let version := FlowMessageParams.FlowMessageVersion params in
        let version := if decide (version = "") then "3" else version in
        let parameters (flowID flowName : string) :=
          FlowMessageActionParams.mk version flowID flowName
            (FlowMessageParams.FlowCTA params) "" "" None "" in
        let msg (flowID flowName : string) :=
          FlowMessage.mk InteractiveMessageTypeFlow None
            (FlowMessageBody.mk (FlowMessageParams.BodyText params)) None
            (FlowMessageAction.mk "flow" (parameters flowID flowName)) in
        if decide (FlowMessageParams.FlowID params ≠ "")
        then (Some (msg (FlowMessageParams.FlowID params) ""), None)
        else (Some (msg "" (FlowMessageParams.FlowName params)), None)
  end.

End FlowMessageOperations.

(** [m.Action.Parameters = p], the other fields kept. *)
Definition with_parameters (p : FlowMessageActionParams.t) (m : FlowMessage.t)
  : FlowMessage.t :=
  FlowMessage.mk (FlowMessage.Type_ m) (FlowMessage.Header m) (FlowMessage.Body m)
    (FlowMessage.Footer m)
    (FlowMessageAction.mk (FlowMessageAction.Name (FlowMessage.Action m)) p).

Definition SetHeader (text : string) (m : FlowMessage.t) : FlowMessage.t :=
  FlowMessage.mk (FlowMessage.Type_ m)
    (Some (FlowMessageHeader.mk FlowMessageHeaderTypeText text))
    (FlowMessage.Body m) (FlowMessage.Footer m) (FlowMessage.Action m).

Definition SetFooter (text : string) (m : FlowMessage.t) : FlowMessage.t :=
  FlowMessage.mk (FlowMessage.Type_ m) (FlowMessage.Header m) (FlowMessage.Body m)
    (Some (FlowMessageFooter.mk text)) (FlowMessage.Action m).

Definition SetFlowToken (token : string) (m : FlowMessage.t) : FlowMessage.t :=
  let p := FlowMessageAction.Parameters (FlowMessage.Action m) in
  with_parameters
    (FlowMessageActionParams.mk (FlowMessageActionParams.FlowMessageVersion p)
       (FlowMessageActionParams.FlowID p) (FlowMessageActionParams.FlowName p)
       (FlowMessageActionParams.FlowCTA p) token (FlowMessageActionParams.FlowAction p)
       (FlowMessageActionParams.FlowActionPayload p) (FlowMessageActionParams.Mode p)) m.

Definition SetMode (mode : FlowMessageMode) (m : FlowMessage.t) : FlowMessage.t :=
  let p := FlowMessageAction.Parameters (FlowMessage.Action m) in
  with_parameters
    (FlowMessageActionParams.mk (FlowMessageActionParams.FlowMessageVersion p)
       (FlowMessageActionParams.FlowID p) (FlowMessageActionParams.FlowName p)
       (FlowMessageActionParams.FlowCTA p) (FlowMessageActionParams.FlowToken p)
       (FlowMessageActionParams.FlowAction p)
       (FlowMessageActionParams.FlowActionPayload p) mode) m.

Definition SetFlowAction (action : FlowAction) (payload : option FlowActionPayload.t)
    (m : FlowMessage.t) : FlowMessage.t :=
  let p := FlowMessageAction.Parameters (FlowMessage.Action m) in
  with_parameters
    (FlowMessageActionParams.mk (FlowMessageActionParams.FlowMessageVersion p)
       (FlowMessageActionParams.FlowID p) (FlowMessageActionParams.FlowName p)
       (FlowMessageActionParams.FlowCTA p) (FlowMessageActionParams.FlowToken p)
       action payload (FlowMessageActionParams.Mode p)) m.

(** One call of a setter, for speaking of any sequence of them. *)
Inductive setter : Type :=
| CallSetHeader (text : string)
| CallSetFooter (text : string)
| CallSetFlowToken (token : string)
| CallSetMode (mode : FlowMessageMode)
| CallSetFlowAction (action : FlowAction) (payload : option FlowActionPayload.t).

Definition apply_setter (m : FlowMessage.t) (s : setter) : FlowMessage.t :=
  match s with
  | CallSetHeader text => SetHeader text m
  | CallSetFooter text => SetFooter text m
  | CallSetFlowToken token => SetFlowToken token m
  | CallSetMode mode => SetMode mode m
  | CallSetFlowAction action payload => SetFlowAction action payload m
  end.

(** What a message holds of the parameters it was made from: its type, body,
    action name, protocol version, flow reference and button text. *)
Definition essentials (m : FlowMessage.t) : string * string * string * (string * string * string * string) :=
  let p := FlowMessageAction.Parameters (FlowMessage.Action m) in
  (FlowMessage.Type_ m, FlowMessageBody.Text (FlowMessage.Body m),
   FlowMessageAction.Name (FlowMessage.Action m),
   (FlowMessageActionParams.FlowMessageVersion p, FlowMessageActionParams.FlowID p,
    FlowMessageActionParams.FlowName p, FlowMessageActionParams.FlowCTA p)).

(** A message names its flow by id or by name, never by both or neither. *)
Definition one_flow_reference (m : FlowMessage.t) : Prop :=
  let p := FlowMessageAction.Parameters (FlowMessage.Action m) in
  (FlowMessageActionParams.FlowID p ≠ "" ∧ FlowMessageActionParams.FlowName p = "") ∨
  (FlowMessageActionParams.FlowID p = "" ∧ FlowMessageActionParams.FlowName p ≠ "").

End components.

(** A validator for the tags of FlowMessageParams: BodyText and FlowCTA are
    required, that is, not empty. *)
Definition mock_components : components.Components := {|
  components.InteractiveMessageTypeFlow := "flow";
  components.validate_Struct := λ params,
    if decide (components.FlowMessageParams.BodyText params = "")
    then Some (errorString "Field validation for 'BodyText' failed on the 'required' tag")
    else if decide (components.FlowMessageParams.FlowCTA params = "")
    then Some (errorString "Field validation for 'FlowCTA' failed on the 'required' tag")
    else None
|}.

(** ** More vocabulary *)

(** Every error the remote answered with during the run is a cause of the
    error the operation returns: [errors.Is] finds it. *)
Definition keeps_cause {W A : Type} (t : Remote W) (p : Prog (A * option error))
    (w : W) : Prop :=
  ∀ e, e ∈ remote_errors t p w →
    ∃ err, (run t p w).1.2 = Some err ∧ Is err e.

(** A Go pair of a pointer and an error holds a result exactly when it holds
    no error. *)
Definition result_xor_error {A : Type} (out : option A * option error) : Prop :=
  (out.1 = None ↔ out.2 ≠ None).

(** ** More of the mock environment *)

Definition mock_Marshal_CreateFlowRequest : Marshal CreateFlowRequest.t := λ r,
  Ok (bytes_of_string (json_object1 "name" (escapeQuotes (CreateFlowRequest.Name r)))).

Definition mock_Marshal_UpdateFlowRequest : Marshal UpdateFlowRequest.t := λ r,
  Ok (bytes_of_string (json_object1 "name" (escapeQuotes (UpdateFlowRequest.Name r)))).

(** A decoder of flow lists that knows the empty object only. *)
Definition mock_Unmarshal_FlowsListResponse : Unmarshal (FlowsListResponse.t unit) := λ b,
  if decide (string_of_bytes b = "{}") then Ok (FlowsListResponse.mk unit [] tt)
  else Err (errorString "invalid character looking for beginning of value").

(** A remote that accepts every call and answers that it did not succeed. *)
Definition rejecting : Remote nat :=
  scripted (λ c,
    match c with
    | Execute _ => (json_flag "success" false, None)
    | RequestMultipart _ _ _ _ => (json_flag "success" false, None)
    | Do _ => Ok (mkHttpResponse 200 (bytes_NewReader (bytes_of_string "{}")))
    end).

(** A message that names its flow "booking" by name. *)
Definition booking_message : components.FlowMessage.t :=
  components.FlowMessage.mk "flow" None (components.FlowMessageBody.mk "Book a slot") None
    (components.FlowMessageAction.mk "flow"
       (components.FlowMessageActionParams.mk "7" "" "booking" "Open" "" "" None "")).

(** ** Properties *)

Lemma run_bind {W A B : Type} (t : Remote W) (p : Prog A) (f : A → Prog B) (w : W) :
  run t (p ≫= f) w = let (a, w') := run t p w in run t (f a) w'.
Proof.
  unfold mbind, Prog_mbind. revert w.
  induction p as [a | c k IH]; intros w; simpl; [reflexivity |].
  destruct (t c w) as [r w']. apply IH.
Qed.

Lemma calls_bind {W A B : Type} (t : Remote W) (p : Prog A) (f : A → Prog B) (w : W) :
  calls t (p ≫= f) w
  = calls t p w ++ (let (a, w') := run t p w in calls t (f a) w').
Proof.
  unfold mbind, Prog_mbind. revert w.
  induction p as [a | c k IH]; intros w; simpl; [reflexivity |].
  destruct (t c w) as [r w']. simpl. f_equal. apply IH.
Qed.

Lemma Is_Errorf_w (prefix : string) (err : error) : Is (Errorf_w prefix err) err.
Proof. simpl. right. destruct err; simpl; left; reflexivity. Qed.

Ltac step_remote t :=
  match goal with
  | |- context [t ?c ?w] =>
      let r := fresh "reply" in
      let w' := fresh "w'" in
      let E := fresh "Ereply" in
      destruct (t c w) as [r w'] eqn:E; simpl
  end.

(* Closes a goal [¬ failed out → _] whose [out] carries an error. *)
Ltac errors_fail :=
  let Hn := fresh "Hn" in
  intros Hn; exfalso; apply Hn; unfold failed; simpl; congruence.

Ltac split_match :=
  match goal with
  | |- context [match ?x with _ => _ end] =>
      lazymatch x with
      | context [match _ with _ => _ end] => fail
      | _ => destruct x eqn:?; simpl
      end
  end.

Section MediaManagerProperties.
Context `{Config}.
Context `{!Unmarshal MediaMetadata.t} `{!Unmarshal DeleteSuccessResponse.t}.
Context `{!Unmarshal UploadMediaResult.t} `{!Unmarshal ResumableUploadSession.t}.
Context `{!Unmarshal ResumableUploadResult.t} `{!Marshal (gmap string jvalue)}.
Context {W : Type} (t : Remote W).

Ltac crunch :=
  unfold empty_on_error, failed; simpl;
  repeat first [ step_remote t | split_match ];
  simpl; try congruence; try tauto.

Lemma GetMediaUrlById_empty_on_error (id : string) (w : W) :
  empty_on_error (run t (GetMediaUrlById id) w).1.
Proof. unfold GetMediaUrlById. crunch. Qed.

Lemma DeleteMedia_empty_on_error (id : string) (w : W) :
  empty_on_error (run t (DeleteMedia id) w).1.
Proof. unfold DeleteMedia. crunch. Qed.

Lemma UploadMedia_empty_on_error (b phoneNumberId : string) (file : Reader)
    (filename mimeType : string) (w : W) :
  empty_on_error (run t (UploadMedia b phoneNumberId file filename mimeType) w).1.
Proof.
  unfold UploadMedia.
  destruct (UploadMedia_form b file filename mimeType) as [writer | err]; crunch.
Qed.

Lemma CreateResumableUploadSession_empty_on_error (appID : string) (fileLength : Z)
    (fileType : string) (w : W) :
  empty_on_error (run t (CreateResumableUploadSession appID fileLength fileType) w).1.
Proof. unfold CreateResumableUploadSession. crunch. Qed.

Lemma UploadResumableMedia_empty_on_error (sessionID : string) (fileData : bytes)
    (fileOffset : Z) (w : W) :
  empty_on_error (run t (UploadResumableMedia sessionID fileData fileOffset) w).1.
Proof.
  unfold UploadResumableMedia.
  destruct (UploadResumableMedia_request sessionID fileData fileOffset) as [req | err];
    crunch.
Qed.

Lemma UploadMediaForTemplate_empty_on_error (appID : string) (fileData : bytes)
    (fileType : string) (w : W) :
  empty_on_error (run t (UploadMediaForTemplate appID fileData fileType) w).1.
Proof.
  unfold UploadMediaForTemplate, empty_on_error, failed.
  rewrite run_bind.
  destruct (run t (CreateResumableUploadSession _ _ _) w) as [[sessionID [e | ]] w1];
    simpl; [reflexivity |].
  rewrite run_bind.
  destruct (run t (UploadResumableMedia _ _ _) w1) as [[handle [e | ]] w2]; simpl;
    congruence.
Qed.

End MediaManagerProperties.

Section MediaManagerClaims.
Context `{Config}.
Context `{!Unmarshal MediaMetadata.t} `{!Unmarshal DeleteSuccessResponse.t}.
Context `{!Unmarshal UploadMediaResult.t} `{!Unmarshal ResumableUploadSession.t}.
Context `{!Unmarshal ResumableUploadResult.t} `{!Marshal (gmap string jvalue)}.
Context {W : Type} (t : Remote W).

(** C10: whenever one of the string-returning MediaManager operations
    returns a non-nil error, the string it returns is empty. *)
Theorem MediaManager_empty_on_error (w : W) :
  (∀ id, empty_on_error (run t (GetMediaUrlById id) w).1) ∧
  (∀ id, empty_on_error (run t (DeleteMedia id) w).1) ∧
  (∀ b phoneNumberId file filename mimeType,
     empty_on_error (run t (UploadMedia b phoneNumberId file filename mimeType) w).1) ∧
  (∀ sessionID fileData fileOffset,
     empty_on_error (run t (UploadResumableMedia sessionID fileData fileOffset) w).1) ∧
  (∀ appID fileLength fileType,
     empty_on_error (run t (CreateResumableUploadSession appID fileLength fileType) w).1) ∧
  (∀ appID fileData fileType,
     empty_on_error (run t (UploadMediaForTemplate appID fileData fileType) w).1).
Proof.
  repeat split; intros.
  - apply GetMediaUrlById_empty_on_error.
  - apply DeleteMedia_empty_on_error.
  - apply UploadMedia_empty_on_error.
  - apply UploadResumableMedia_empty_on_error.
  - apply CreateResumableUploadSession_empty_on_error.
  - apply UploadMediaForTemplate_empty_on_error.
Qed.

(** C4: on a metadata response that decodes, GetMediaUrlById returns an
    error naming the raw response when the decoded url is empty (an absent
    field decodes to the empty string), returns the url when it is not
    empty, and never returns the empty string without an error. *)
Theorem GetMediaUrlById_url (id : string) (w : W) :
  let out := run t (GetMediaUrlById id) w in
  (∀ raw w' res,
     t (Execute (NewApiRequest id MethodGet)) w = ((raw, None), w') →
     json_Unmarshal (bytes_of_string raw) = Ok res →
     MediaMetadata.Url res = "" →
     out = (("", Some (errorString ("no media url found in response: " +:+ raw))), w')) ∧
  (∀ raw w' res,
     t (Execute (NewApiRequest id MethodGet)) w = ((raw, None), w') →
     json_Unmarshal (bytes_of_string raw) = Ok res →
     MediaMetadata.Url res ≠ "" →
     out = ((MediaMetadata.Url res, None), w')) ∧
  (¬ failed out.1 → out.1.1 ≠ "").
Proof.
  unfold GetMediaUrlById, failed. simpl. repeat split.
  - intros raw w' res Hexec Hdec Hurl. rewrite Hexec. simpl. rewrite Hdec.
    destruct (decide _) as [_ | Hne]; [reflexivity | contradiction].
  - intros raw w' res Hexec Hdec Hurl. rewrite Hexec. simpl. rewrite Hdec.
    destruct (decide _) as [He | _]; [contradiction | reflexivity].
  - destruct (t _ w) as [[raw [err | ]] w']; simpl; [errors_fail |].
    destruct (json_Unmarshal _) as [res | err]; simpl; [| errors_fail].
    destruct (decide _) as [He | Hne]; simpl; [errors_fail | auto].
Qed.

(** C5: on a delete response that decodes with success=false, DeleteMedia
    returns an error that carries the raw response; it returns without an
    error only when the remote answered a response that decodes with
    success=true. *)
Theorem DeleteMedia_success_flag (id : string) (w : W) :
  let out := run t (DeleteMedia id) w in
  (∀ raw w' res,
     t (Execute (NewApiRequest (Join2 "media" id) MethodDelete)) w = ((raw, None), w') →
     json_Unmarshal (bytes_of_string raw) = Ok res →
     DeleteSuccessResponse.Success res = false →
     out = (("", Some (errorString
                         ("media deletion failed or returned success=false: " +:+ raw))),
            w')) ∧
  (¬ failed out.1 →
   ∃ raw w' res,
     t (Execute (NewApiRequest (Join2 "media" id) MethodDelete)) w = ((raw, None), w') ∧
     json_Unmarshal (bytes_of_string raw) = Ok res ∧
     DeleteSuccessResponse.Success res = true ∧
     out = (("media deleted successfully", None), w')).
Proof.
  unfold DeleteMedia, failed. simpl. split.
  - intros raw w' res Hexec Hdec Hflag. rewrite Hexec. simpl. rewrite Hdec, Hflag.
    reflexivity.
  - destruct (t _ w) as [[raw [err | ]] w']; simpl; [errors_fail |].
    destruct (json_Unmarshal _) as [res | err] eqn:Hdec; simpl;
      [| errors_fail].
    destruct (DeleteSuccessResponse.Success res) eqn:Hflag; simpl;
      [| errors_fail].
    intros _. exists raw, w', res. auto.
Qed.

End MediaManagerClaims.

Lemma ParseInt_FormatInt (i : Z) : ParseInt (FormatInt i) = Some i.
Proof.
  unfold ParseInt, FormatInt.
  rewrite NilZero.isi.
  - simpl. f_equal. apply DecimalZ.of_to.
  - destruct i as [| p | p]; simpl; try discriminate.
    intros [= E]. exact (Unsigned.to_uint_nonnil p E).
  - destruct i as [| p | p]; simpl; try discriminate.
    intros [= E]. exact (Unsigned.to_uint_nonnil p E).
Qed.

Section ResumableUploadClaims.
Context `{Config}.
Context `{!Unmarshal ResumableUploadSession.t}.
Context `{!Unmarshal ResumableUploadResult.t} `{!Marshal (gmap string jvalue)}.
Context {W : Type} (t : Remote W).

Lemma UploadResumableMedia_calls (sessionID : string) (fileData : bytes) (fileOffset : Z)
    (req : HttpRequest) (w : W) :
  UploadResumableMedia_request sessionID fileData fileOffset = Ok req →
  calls t (UploadResumableMedia sessionID fileData fileOffset) w = [Do req].
Proof.
  intros Hreq. unfold UploadResumableMedia. rewrite Hreq. simpl.
  destruct (t (Do req) w) as [[response | err] w']; simpl; [| reflexivity].
  destruct (rd_err (resp_Body response)); simpl; [reflexivity |].
  destruct (_ || _); simpl; [reflexivity |].
  destruct (json_Unmarshal _) as [res | err]; simpl; [| reflexivity].
  destruct (decide _); reflexivity.
Qed.

(** C7: the request UploadResumableMedia sends carries the payload bytes as
    they are as its body, the header Authorization with the value
    "OAuth <access token>", and the header file_offset whose value is the
    decimal numeral of the offset; it is the one call the operation places. *)
Theorem UploadResumableMedia_request_shape (sessionID : string) (fileData : bytes)
    (fileOffset : Z) (req : HttpRequest) :
  UploadResumableMedia_request sessionID fileData fileOffset = Ok req →
  req_Method req = "POST" ∧
  req_URL req
    = REQUEST_PROTOCOL +:+ "://" +:+ BASE_URL +:+ "/" +:+ API_VERSION +:+ "/" +:+ sessionID ∧
  req_Body req = fileData ∧
  Header_Get "Authorization" (req_Header req) = "OAuth " +:+ ApiAccessToken ∧
  Header_Get "file_offset" (req_Header req) = FormatInt fileOffset ∧
  ParseInt (Header_Get "file_offset" (req_Header req)) = Some fileOffset ∧
  ∀ w : W, calls t (UploadResumableMedia sessionID fileData fileOffset) w = [Do req].
Proof.
  intros Hreq.
  assert (Hcalls := λ w, UploadResumableMedia_calls sessionID fileData fileOffset req w Hreq).
  unfold UploadResumableMedia_request, http_NewRequest in Hreq. simpl in Hreq.
  destruct (url_Parse _) as [err | ]; [discriminate |].
  apply (f_equal (λ r, match r with Ok q => q | Err _ => req end)) in Hreq.
  subst req. simpl.
  assert (Hoff : Header_Get "file_offset"
            (Header_Set "file_offset" (FormatInt fileOffset)
               (Header_Set "Authorization" ("OAuth " +:+ ApiAccessToken) ∅))
          = FormatInt fileOffset).
  { unfold Header_Get, Header_Set. rewrite lookup_insert_eq. reflexivity. }
  split; [reflexivity |]. split; [reflexivity |]. split; [reflexivity |].
  split; [| split; [exact Hoff | split; [| exact Hcalls]]].
  - unfold Header_Get, Header_Set.
    rewrite lookup_insert_ne by (intros E; vm_compute in E; discriminate E).
    rewrite lookup_insert_eq. reflexivity.
  - rewrite Hoff. apply ParseInt_FormatInt.
Qed.

Lemma answered_inv (w : W) (sessionID : string) (fileData : bytes) (fileOffset : Z)
    (status : Z) (body : bytes) :
  answered t w sessionID fileData fileOffset status body ↔
  ∃ req w',
    UploadResumableMedia_request sessionID fileData fileOffset = Ok req ∧
    t (Do req) w = (Ok (mkHttpResponse status (mkReader body None)), w').
Proof.
  unfold answered. split.
  - intros (req & [status' body'] & Hreq & Hdo & Hst & Hbody). simpl in *. subst.
    exists req. destruct (t (Do req) w) as [reply w']. simpl in Hdo. subst.
    eauto.
  - intros (req & w' & Hreq & Hdo). exists req. eexists.
    rewrite Hdo. simpl. eauto.
Qed.

(** C3: UploadResumableMedia returns an error exactly when the HTTP layer
    failed, or the remote answered with a status outside 200..299, or with
    a body that does not decode, or that decodes to an empty handle; the
    error for a bad status carries the body; without an error the decoded
    handle is returned. *)
Theorem UploadResumableMedia_error_iff (sessionID : string) (fileData : bytes)
    (fileOffset : Z) (w : W) :
  let out := (run t (UploadResumableMedia sessionID fileData fileOffset) w).1 in
  (failed out ↔
     transport_failed t w sessionID fileData fileOffset ∨
     ∃ status body,
       answered t w sessionID fileData fileOffset status body ∧
       (¬ (200 ≤ status < 300)%Z ∨
        (∃ e, json_Unmarshal (T:=ResumableUploadResult.t) body = Err e) ∨
        (∃ res, json_Unmarshal body = Ok res ∧ ResumableUploadResult.Handle res = ""))) ∧
  (∀ status body,
     answered t w sessionID fileData fileOffset status body →
     ¬ (200 ≤ status < 300)%Z →
     out = ("", Some (errorString
                        ("upload failed with status " +:+ FormatInt status +:+ ": "
                         +:+ string_of_bytes body)))) ∧
  (¬ failed out →
   ∃ status body res,
     answered t w sessionID fileData fileOffset status body ∧
     (200 ≤ status < 300)%Z ∧
     json_Unmarshal body = Ok res ∧
     ResumableUploadResult.Handle res ≠ "" ∧
     out = (ResumableUploadResult.Handle res, None)).
Proof.
  cbv zeta. unfold UploadResumableMedia, transport_failed, failed.
  setoid_rewrite answered_inv.
  destruct (UploadResumableMedia_request sessionID fileData fileOffset) as [req | e0]
    eqn:Hreq; simpl.
  2: { split; [| split].
       - split; [intros _; left; exact I | intros _; congruence].
       - intros status body (req & w' & [=] & _).
       - intros Hn. exfalso. apply Hn. congruence. }
  destruct (t (Do req) w) as [[[status [body rerr]] | e1] w'] eqn:Hdo; simpl.
  2: { split; [| split].
       - split; [intros _; left; exact I | intros _; congruence].
       - intros status body (req' & w'' & [= <-] & Hdo'). congruence.
       - intros Hn. exfalso. apply Hn. congruence. }
  assert (Hans : ∀ status' body',
            (∃ req' w'',
               Ok req = Ok req' ∧
               t (Do req') w = (Ok (mkHttpResponse status' (mkReader body' None)), w''))
            → status' = status ∧ body' = body ∧ rerr = None).
  { intros status' body' (req' & w'' & [= <-] & Hdo').
    rewrite Hdo in Hdo'. injection Hdo' as -> -> -> ->. auto. }
  destruct rerr as [e2 | ]; simpl.
  { split; [| split].
    - split; [intros _; left; congruence | intros _; congruence].
    - intros status' body' (_ & _ & [=])%Hans.
    - intros Hn. exfalso. apply Hn. congruence. }
  assert (Hhere : ∃ req' w'',
            Ok req = Ok req' ∧
            t (Do req') w = (Ok (mkHttpResponse status (mkReader body None)), w''))
    by eauto.
  destruct (Z.ltb_spec status 200) as [Hlo | Hlo]; simpl.
  { split; [| split].
    - split; [| intros _; congruence].
      intros _. right. exists status, body. split; [exact Hhere |]. left. lia.
    - intros status' body' (-> & -> & _)%Hans _. reflexivity.
    - intros Hn. exfalso. apply Hn. congruence. }
  destruct (Z.geb_spec status 300) as [Hhi | Hhi]; simpl.
  { split; [| split].
    - split; [| intros _; congruence].
      intros _. right. exists status, body. split; [exact Hhere |]. left. lia.
    - intros status' body' (-> & -> & _)%Hans _. reflexivity.
    - intros Hn. exfalso. apply Hn. congruence. }
  destruct (json_Unmarshal body) as [res | e3] eqn:Hdec; simpl.
  2: { split; [| split].
       - split; [| intros _; congruence].
         intros _. right. exists status, body. split; [exact Hhere |].
         right. left. eauto.
       - intros status' body' (-> & -> & _)%Hans Hbad. lia.
       - intros Hn. exfalso. apply Hn. congruence. }
  destruct (decide (ResumableUploadResult.Handle res = "")) as [Hempty | Hhandle]; simpl.
  { split; [| split].
    - split; [| intros _; congruence].
      intros _. right. exists status, body. split; [exact Hhere |].
      right. right. eauto.
    - intros status' body' (-> & -> & _)%Hans Hbad. lia.
    - intros Hn. exfalso. apply Hn. congruence. }
  split; [| split].
  - split; [intros Hf; exfalso; apply Hf; reflexivity |].
    intros [Hn | (status' & body' & (-> & -> & _)%Hans
                  & [Hbad | [[e He] | (res' & Hres & He)]])].
    + exfalso. apply Hn. reflexivity.
    + lia.
    + congruence.
    + congruence.
  - intros status' body' (-> & -> & _)%Hans Hbad. lia.
  - intros _. exists status, body, res. repeat split; auto; lia.
Qed.

(** C8: CreateResumableUploadSession places one call, a POST to
    "<appID>/uploads" whose body is the JSON encoding of a map with exactly
    the keys file_length and file_type, whatever the answer (no retry); on
    an answer that decodes it returns an error when the decoded id is empty
    and the id otherwise, and it never returns an empty id without an
    error. *)
Theorem CreateResumableUploadSession_contract (appID : string) (fileLength : Z)
    (fileType : string) (w : W) :
  let body := session_body fileLength fileType in
  let out := run t (CreateResumableUploadSession appID fileLength fileType) w in
  dom body = {["file_length"; "file_type"]} ∧
  body !! "file_length" = Some (JInt fileLength) ∧
  body !! "file_type" = Some (JString fileType) ∧
  (¬ failed out.1 → out.1.1 ≠ "") ∧
  ∀ bodyJSON,
    json_Marshal body = Ok bodyJSON →
    let request :=
      Execute (mkApiRequest (appID +:+ "/uploads") "POST" (string_of_bytes bodyJSON)) in
    calls t (CreateResumableUploadSession appID fileLength fileType) w = [request] ∧
    ∀ raw w' res,
      t request w = ((raw, None), w') →
      json_Unmarshal (bytes_of_string raw) = Ok res →
      (ResumableUploadSession.ID res = "" →
       out = (("", Some (errorString ("no upload session ID in response: " +:+ raw))), w')) ∧
      (ResumableUploadSession.ID res ≠ "" →
       out = ((ResumableUploadSession.ID res, None), w')).
Proof.
  cbv zeta. split; [| split; [| split; [| split]]].
  - unfold session_body. rewrite !dom_insert_L, dom_empty_L. set_solver.
  - unfold session_body. rewrite lookup_insert_ne by done. apply lookup_insert_eq.
  - unfold session_body. apply lookup_insert_eq.
  - unfold CreateResumableUploadSession.
    destruct (json_Marshal _) as [bodyJSON | e0]; simpl; [| errors_fail].
    destruct (t _ w) as [[raw [err | ]] w']; simpl; [errors_fail |].
    destruct (json_Unmarshal _) as [res | err]; simpl; [| errors_fail].
    destruct (decide _) as [He | Hne]; simpl; [errors_fail | auto].
  - intros bodyJSON Hbody. unfold CreateResumableUploadSession. rewrite Hbody. simpl.
    unfold NewApiRequest, SetBody, MethodPost. simpl. split.
    + destruct (t _ w) as [[raw [err | ]] w']; simpl; [reflexivity |].
      destruct (json_Unmarshal _) as [res | err]; simpl; [| reflexivity].
      destruct (decide _); reflexivity.
    + intros raw w' res Hexec Hdec. rewrite Hexec. simpl. rewrite Hdec.
      destruct (decide _) as [He | Hne]; split; intros; try contradiction; reflexivity.
Qed.

Lemma UploadResumableMedia_handle (sessionID : string) (fileData : bytes)
    (fileOffset : Z) (w : W) :
  let out := run t (UploadResumableMedia sessionID fileData fileOffset) w in
  ¬ failed out.1 → out.1.1 ≠ "".
Proof.
  cbv zeta. unfold UploadResumableMedia.
  destruct (UploadResumableMedia_request _ _ _) as [req | e0]; simpl; [| errors_fail].
  destruct (t (Do req) w) as [[[status [body [e2 | ]]] | e1] w']; simpl;
    try errors_fail.
  destruct (_ || _); simpl; [errors_fail |].
  destruct (json_Unmarshal body) as [res | e3]; simpl; [| errors_fail].
  destruct (decide _) as [He | Hne]; simpl; [errors_fail | auto].
Qed.

(** C1: against any remote, UploadMediaForTemplate returns the string the
    manual sequence returns (the handle, which is never empty), fails
    exactly when the manual sequence fails, with an error that wraps the
    first error of the sequence, places the same calls and leaves the
    remote in the same state. *)
Theorem UploadMediaForTemplate_agrees_with_manual (appID : string) (fileData : bytes)
    (fileType : string) (w : W) :
  let convenience := run t (UploadMediaForTemplate appID fileData fileType) w in
  let manual := run t (manual_two_step appID fileData fileType) w in
  agrees convenience.1 manual.1 ∧
  convenience.2 = manual.2 ∧
  calls t (UploadMediaForTemplate appID fileData fileType) w
    = calls t (manual_two_step appID fileData fileType) w ∧
  (¬ failed manual.1 → manual.1.1 ≠ "").
Proof.
  cbv zeta. unfold UploadMediaForTemplate, manual_two_step, agrees.
  rewrite !run_bind, !calls_bind.
  destruct (run t (CreateResumableUploadSession _ _ _) w) as [[sessionID [e | ]] w1];
    simpl.
  - repeat split; [eauto | errors_fail].
  - rewrite run_bind, calls_bind.
    pose proof (UploadResumableMedia_empty_on_error t sessionID fileData 0 w1) as Hempty.
    pose proof (UploadResumableMedia_handle sessionID fileData 0 w1) as Hhandle.
    cbv zeta in Hhandle. unfold empty_on_error, failed in Hempty.
    destruct (run t (UploadResumableMedia _ _ _) w1) as [[handle [e | ]] w2]; simpl in *.
    + rewrite app_nil_r. repeat split; [| eauto | errors_fail].
      symmetry. apply Hempty. congruence.
    + rewrite app_nil_r. repeat split. exact Hhandle.
Qed.

End ResumableUploadClaims.


Lemma Header_Get_Set_ne (key key' value : string) (h : gmap string (list string)) :
  CanonicalMIMEHeaderKey key' ≠ CanonicalMIMEHeaderKey key →
  Header_Get key (Header_Set key' value h) = Header_Get key h.
Proof.
  intros Hne. unfold Header_Get, Header_Set. rewrite lookup_insert_ne by exact Hne.
  reflexivity.
Qed.

#[local] Arguments Header_Set : simpl never.
#[local] Arguments Header_Get : simpl never.
#[local] Arguments Writer_Bytes : simpl never.
#[local] Arguments FormDataContentType : simpl never.
#[local] Arguments bytes_of_string : simpl never.
#[local] Arguments string_of_bytes : simpl never.

Section UploadMediaClaims.
Context `{Config} `{!Unmarshal UploadMediaResult.t}.
Context {W : Type} (t : Remote W).

Lemma UploadMedia_form_readable (b : string) (file : Reader) (filename mimeType : string) :
  rd_err file = None →
  UploadMedia_form b file filename mimeType
  = Ok (mkWriter b
          [mkPart
             (Header_Set "Content-Disposition"
                ("form-data; name=" +:+ quote +:+ "messaging_product" +:+ quote) ∅)
             (bytes_of_string "whatsapp");
           mkPart
             (Header_Set "Content-Type" mimeType
                (Header_Set "Content-Disposition"
                   ("form-data; name=" +:+ quote +:+ "file" +:+ quote +:+ "; filename="
                    +:+ quote +:+ filepath_Base filename +:+ quote) ∅))
             (rd_data file)]
          true).
Proof.
  intros Hread.
  unfold UploadMedia_form, WriteField, CreateFormField, CreatePart, io_Copy, Part_Write,
    Writer_Close, NewWriter.
  simpl. rewrite Hread. reflexivity.
Qed.

Lemma UploadMedia_unreadable (b phoneNumberId : string) (file : Reader)
    (filename mimeType : string) (e : error) (w : W) :
  rd_err file = Some e →
  run t (UploadMedia b phoneNumberId file filename mimeType) w
    = (("", Some (Errorf_w "failed to copy file into part: " e)), w) ∧
  calls t (UploadMedia b phoneNumberId file filename mimeType) w = [].
Proof.
  intros Hread.
  unfold UploadMedia, UploadMedia_form, WriteField, CreateFormField, CreatePart, io_Copy,
    Part_Write, Writer_Close, NewWriter.
  simpl. rewrite Hread. simpl. split; reflexivity.
Qed.

(** C6, amended: for a file that is read to its end without an error,
    UploadMedia builds a form of two parts, the field messaging_product with
    the value whatsapp, and the payload part with the headers
    Content-Disposition (name "file", filename the base name of the
    supplied file name) and Content-Type (the supplied MIME type) and the
    bytes of the file, and it places one call, a POST of that form to
    "<phoneNumberId>/media". *)
Theorem UploadMedia_two_part_form (b phoneNumberId : string) (file : Reader)
    (filename mimeType : string) (w : W) :
  rd_err file = None →
  ∃ product payload : Part,
    let writer := mkWriter b [product; payload] true in
    UploadMedia_form b file filename mimeType = Ok writer ∧
    dom (p_header product) = {["Content-Disposition"]} ∧
    Header_Get "Content-Disposition" (p_header product)
      = "form-data; name=" +:+ quote +:+ "messaging_product" +:+ quote ∧
    p_content product = bytes_of_string "whatsapp" ∧
    dom (p_header payload) = {["Content-Disposition"; "Content-Type"]} ∧
    Header_Get "Content-Disposition" (p_header payload)
      = "form-data; name=" +:+ quote +:+ "file" +:+ quote +:+ "; filename="
        +:+ quote +:+ filepath_Base filename +:+ quote ∧
    Header_Get "Content-Type" (p_header payload) = mimeType ∧
    p_content payload = rd_data file ∧
    calls t (UploadMedia b phoneNumberId file filename mimeType) w
      = [RequestMultipart "POST" (phoneNumberId +:+ "/media") (Writer_Bytes writer)
           (FormDataContentType writer)].
Proof.
  intros Hread. eexists _, _. cbv zeta.
  split; [apply UploadMedia_form_readable; exact Hread |].
  simpl.
  (* the header facts hold by evaluation: the keys are closed strings *)
  repeat (split; [reflexivity |]).
  unfold UploadMedia. rewrite (UploadMedia_form_readable _ _ _ _ Hread). simpl.
  destruct (t _ w) as [[responseBody [err | ]] w']; simpl; [reflexivity |].
  destruct (json_Unmarshal _) as [result | err]; simpl; [| reflexivity].
  destruct (decide _); reflexivity.
Qed.

End UploadMediaClaims.

Section FlowManagerClaims.
Context `{!Unmarshal UploadFlowJSONResponse.t}.
Context {W : Type} (t : Remote W).

Lemma UploadFlowJSON_form_parts (b flowJSON : string) :
  part_001.UploadFlowJSON_form b flowJSON
  = Ok (mkWriter b
          [mkPart
             (Header_Set "Content-Disposition"
                ("form-data; name=" +:+ quote +:+ "name" +:+ quote) ∅)
             (bytes_of_string "flow.json");
           mkPart
             (Header_Set "Content-Disposition"
                ("form-data; name=" +:+ quote +:+ "asset_type" +:+ quote) ∅)
             (bytes_of_string "FLOW_JSON");
           mkPart
             (Header_Set "Content-Type" "application/octet-stream"
                (Header_Set "Content-Disposition"
                   ("form-data; name=" +:+ quote +:+ "file" +:+ quote +:+ "; filename="
                    +:+ quote +:+ "flow.json" +:+ quote) ∅))
             (bytes_of_string flowJSON)]
          true).
Proof. reflexivity. Qed.

Lemma UploadFlowJSON_file_content (b flowJSON : string) (writer : Writer) :
  part_001.UploadFlowJSON_form b flowJSON = Ok writer →
  file_content writer = Some (bytes_of_string flowJSON).
Proof.
  rewrite UploadFlowJSON_form_parts.
  intros Hw. apply (f_equal (λ r, match r with Ok q => q | Err _ => writer end)) in Hw.
  subst writer. reflexivity.
Qed.

(** The asset upload of src/unnamed/part_001 posts a multipart form of three
    parts: the fields name and asset_type and the document as the file. *)
Lemma UploadFlowJSON_multipart (b flowID flowJSON : string) (w : W) :
  ∃ writer,
    part_001.UploadFlowJSON_form b flowJSON = Ok writer ∧
    length (parts writer) = 3 ∧
    file_content writer = Some (bytes_of_string flowJSON) ∧
    calls t (part_001.UploadFlowJSON b flowID flowJSON) w
    = [RequestMultipart "POST" (flowID +:+ "/assets") (Writer_Bytes writer)
         (FormDataContentType writer)].
Proof.
  eexists. split; [apply UploadFlowJSON_form_parts |].
  split; [reflexivity |]. split; [reflexivity |].
  unfold part_001.UploadFlowJSON. rewrite UploadFlowJSON_form_parts. simpl.
  destruct (t _ w) as [[response [err | ]] w']; simpl; [reflexivity |].
  destruct (json_Unmarshal _) as [result | err]; reflexivity.
Qed.

Lemma GetFlowJSON_raw (flowID raw : string) (w w' : W) :
  t (Execute (NewApiRequest (Join2 flowID "assets") MethodGet)) w = ((raw, None), w') →
  run t (part_001.GetFlowJSON flowID) w = ((raw, None), w').
Proof. intros Hget. unfold part_001.GetFlowJSON. simpl. rewrite Hget. reflexivity. Qed.

(** C9: when the remote echoes the form that UploadFlowJSON posts to
    "<flowID>/assets", GetFlowJSON after an UploadFlowJSON that returned no
    error returns the document, byte for byte; and GetFlowJSON returns
    whatever text the remote answers, as it is. *)
Theorem GetFlowJSON_after_UploadFlowJSON (b flowID flowJSON : string) (writer : Writer)
    (result : UploadFlowJSONResponse.t) (w w1 : W) :
  part_001.UploadFlowJSON_form b flowJSON = Ok writer →
  echoes t (Join2 flowID "assets") writer →
  run t (part_001.UploadFlowJSON b flowID flowJSON) w = ((Some result, None), w1) →
  (∃ w2, run t (part_001.GetFlowJSON flowID) w1 = ((flowJSON, None), w2)) ∧
  (∀ raw w' w'',
     t (Execute (NewApiRequest (Join2 flowID "assets") MethodGet)) w' = ((raw, None), w'') →
     run t (part_001.GetFlowJSON flowID) w' = ((raw, None), w'')).
Proof.
  intros Hform Hecho Hrun. split; [| intros raw w' w''; apply GetFlowJSON_raw].
  unfold part_001.UploadFlowJSON in Hrun. rewrite Hform in Hrun. simpl in Hrun.
  destruct (t _ w) as [[response [err | ]] w'] eqn:Hpost; simpl in Hrun;
    [discriminate Hrun |].
  destruct (json_Unmarshal _) as [res | err]; simpl in Hrun; [| discriminate Hrun].
  assert (w' = w1) as -> by congruence.
  destruct (Hecho w w1 (response, None) (bytes_of_string flowJSON) Hpost eq_refl
              (UploadFlowJSON_file_content b flowJSON writer Hform)) as [w2 Hget].
  exists w2. apply GetFlowJSON_raw.
  unfold bytes_of_string, string_of_bytes in Hget.
  rewrite string_of_list_byte_of_string in Hget. exact Hget.
Qed.

End FlowManagerClaims.

(** ** The mock remotes at work *)

#[local] Arguments header_lines : simpl never.
#[local] Arguments closing_delimiter : simpl never.

Lemma file_of_asset_form_spec (b flowJSON : string) (writer : Writer) :
  part_001.UploadFlowJSON_form b flowJSON = Ok writer →
  file_of_asset_form b (Writer_Bytes writer) = bytes_of_string flowJSON.
Proof.
  rewrite UploadFlowJSON_form_parts.
  intros Hw. apply (f_equal (λ r, match r with Ok q => q | Err _ => writer end)) in Hw.
  subst writer.
  unfold file_of_asset_form, asset_framing.
  rewrite UploadFlowJSON_form_parts.
  unfold Writer_Bytes. cbn [render_parts parts boundary closed].
  unfold render_part. cbn [p_content p_header].
  change (bytes_of_string "") with (@nil byte).
  rewrite !app_nil_r.
  set (closing := closing_delimiter b).
  set (doc := bytes_of_string flowJSON).
  match goal with
  | |- context [(?p1 ++ ?c1) ++ (?p2 ++ ?c2) ++ ?p3 ++ doc] =>
      set (pre := (p1 ++ c1) ++ (p2 ++ c2) ++ p3)
  end.
  assert (Hempty : ∀ x : bytes, ((pre ++ x) ++ closing) = pre ++ x ++ closing).
  { intros x. rewrite <- app_assoc. reflexivity. }
  match goal with
  | |- context [length (?l ++ closing) - length closing] =>
      replace l with pre by (subst pre; rewrite <- !app_assoc; reflexivity)
  end.
  match goal with
  | |- take _ (drop _ (?l ++ closing)) = _ =>
      replace l with (pre ++ doc) by (subst pre; rewrite <- !app_assoc; reflexivity)
  end.
  rewrite Hempty.
  replace (length (pre ++ closing) - length closing) with (length pre)
    by (rewrite length_app; lia).
  rewrite drop_app_length.
  replace (length (pre ++ doc ++ closing) - length pre - length closing)
    with (length doc) by (rewrite !length_app; lia).
  apply take_app_length.
Qed.

Lemma strip_prefix_app (p s : string) : strip_prefix p (p +:+ s) = Some s.
Proof.
  induction p as [| a p IH]; simpl; [reflexivity |].
  rewrite Ascii.eqb_refl. exact IH.
Qed.

(** The mock remote [echo] echoes every asset form whose boundary needs no
    quotes, whatever the document. *)
Lemma echo_echoes (b path flowJSON : string) (writer : Writer) :
  needs_quotes b = false →
  part_001.UploadFlowJSON_form b flowJSON = Ok writer →
  echoes echo path writer.
Proof.
  intros Hplain Hform w w' reply d Hpost Hok Hfile.
  rewrite (UploadFlowJSON_file_content b flowJSON writer Hform) in Hfile.
  injection Hfile as <-.
  assert (Hb : boundary writer = b).
  { rewrite UploadFlowJSON_form_parts in Hform.
    apply (f_equal (λ r, match r with Ok q => boundary q | Err _ => b end)) in Hform.
    symmetry. exact Hform. }
  unfold echo, FormDataContentType in Hpost. rewrite Hb, Hplain in Hpost.
  rewrite strip_prefix_app in Hpost.
  rewrite (file_of_asset_form_spec b flowJSON writer Hform) in Hpost.
  injection Hpost as <- <-.
  eexists. unfold echo, NewApiRequest. simpl.
  rewrite lookup_insert_eq. reflexivity.
Qed.

Section FlowManagerJsonBody.
Context `{!Marshal UploadFlowJSONRequest.t} `{!Unmarshal CreateFlowResponse.t}.
Context {W : Type} (t : Remote W).

(** The asset upload of src/manager/flow_manager.go places at most one call,
    an Execute whose body is the JSON encoding of the request struct; it
    never posts a multipart form. *)
Lemma flow_manager_UploadFlowJSON_calls (flowID flowJSON : string) (w : W) :
  calls t (flow_manager.UploadFlowJSON flowID flowJSON) w
  = match json_Marshal (UploadFlowJSONRequest.mk "flow.json" "FLOW_JSON" flowJSON) with
    | Ok jsonBody =>
        [Execute (mkApiRequest (flowID +:+ "/assets") "POST" (string_of_bytes jsonBody))]
    | Err _ => []
    end.
Proof.
  unfold flow_manager.UploadFlowJSON.
  destruct (json_Marshal _) as [jsonBody | err]; simpl; [| reflexivity].
  destruct (t _ w) as [[response [err | ]] w']; simpl; [reflexivity |].
  destruct (json_Unmarshal _) as [result | err]; reflexivity.
Qed.

End FlowManagerJsonBody.

(** ** Further properties of the operations *)

Lemma remote_errors_bind {W A B : Type} (t : Remote W) (p : Prog A) (f : A → Prog B)
    (w : W) :
  remote_errors t (p ≫= f) w
  = remote_errors t p w ++ (let (a, w') := run t p w in remote_errors t (f a) w').
Proof.
  unfold mbind, Prog_mbind. revert w.
  induction p as [a | c k IH]; intros w; simpl; [reflexivity |].
  destruct (t c w) as [r w']. rewrite IH, app_assoc. reflexivity.
Qed.

Lemma Is_refl (e : error) : Is e e.
Proof. destruct e; simpl; left; reflexivity. Qed.

Lemma Is_wrap (prefix : string) (err e : error) : Is err e → Is (Errorf_w prefix err) e.
Proof. intros HIs. simpl. right. exact HIs. Qed.

(* Closes [keeps_cause] for a program that places at most one call. *)
Ltac cause_one_call t :=
  unfold keeps_cause; simpl;
  repeat first [ step_remote t | split_match ];
  simpl; intros ? ?;
  repeat match goal with
         | H : _ ∈ [] |- _ => apply not_elem_of_nil in H; contradiction
         | H : _ ∈ _ ++ _ |- _ => rewrite elem_of_app in H; destruct H
         | H : _ ∈ [_] |- _ => apply list_elem_of_singleton in H; subst
         | H : _ ∈ option_list _ |- _ => simpl in H
         end;
  try (eexists; split; [reflexivity |]; first [ apply Is_refl | apply Is_Errorf_w ]).

Section ErrorCauses.
Context `{Config}.
Context `{!Unmarshal MediaMetadata.t} `{!Unmarshal DeleteSuccessResponse.t}.
Context `{!Unmarshal UploadMediaResult.t} `{!Unmarshal ResumableUploadSession.t}.
Context `{!Unmarshal ResumableUploadResult.t} `{!Marshal (gmap string jvalue)}.
Context {W : Type} (t : Remote W).

Lemma GetMediaUrlById_keeps_cause (id : string) (w : W) :
  keeps_cause t (GetMediaUrlById id) w.
Proof. unfold GetMediaUrlById. cause_one_call t. Qed.

Lemma DeleteMedia_keeps_cause (id : string) (w : W) :
  keeps_cause t (DeleteMedia id) w.
Proof. unfold DeleteMedia. cause_one_call t. Qed.

Lemma UploadMedia_keeps_cause (b phoneNumberId : string) (file : Reader)
    (filename mimeType : string) (w : W) :
  keeps_cause t (UploadMedia b phoneNumberId file filename mimeType) w.
Proof.
  unfold UploadMedia.
  destruct (UploadMedia_form b file filename mimeType) as [writer | err];
    cause_one_call t.
Qed.

Lemma CreateResumableUploadSession_keeps_cause (appID : string) (fileLength : Z)
    (fileType : string) (w : W) :
  keeps_cause t (CreateResumableUploadSession appID fileLength fileType) w.
Proof. unfold CreateResumableUploadSession. cause_one_call t. Qed.

Lemma UploadResumableMedia_keeps_cause (sessionID : string) (fileData : bytes)
    (fileOffset : Z) (w : W) :
  keeps_cause t (UploadResumableMedia sessionID fileData fileOffset) w.
Proof.
  unfold UploadResumableMedia.
  destruct (UploadResumableMedia_request sessionID fileData fileOffset) as [req | err];
    cause_one_call t.
Qed.

Lemma UploadMediaForTemplate_keeps_cause (appID : string) (fileData : bytes)
    (fileType : string) (w : W) :
  keeps_cause t (UploadMediaForTemplate appID fileData fileType) w.
Proof.
  unfold keeps_cause, UploadMediaForTemplate.
  rewrite remote_errors_bind, run_bind.
  pose proof (CreateResumableUploadSession_keeps_cause appID
                (Z.of_nat (length fileData)) fileType w) as Hfirst.
  unfold keeps_cause in Hfirst.
  destruct (run t (CreateResumableUploadSession _ _ _) w) as [[sessionID [e1 | ]] w1];
    simpl in *.
  - intros e Hin. rewrite app_nil_r in Hin.
    destruct (Hfirst e Hin) as (err & [= <-] & HIs).
    eexists. split; [reflexivity |]. apply Is_wrap. exact HIs.
  - rewrite remote_errors_bind, run_bind.
    pose proof (UploadResumableMedia_keeps_cause sessionID fileData 0 w1) as Hsecond.
    unfold keeps_cause in Hsecond.
    destruct (run t (UploadResumableMedia _ _ _) w1) as [[handle [e2 | ]] w2];
      simpl in *; intros e Hin; rewrite app_nil_r in Hin;
      apply elem_of_app in Hin as [Hin | Hin].
    + destruct (Hfirst e Hin) as (err & [=] & _).
    + destruct (Hsecond e Hin) as (err & [= <-] & HIs).
      eexists. split; [reflexivity |]. apply Is_wrap. exact HIs.
    + destruct (Hfirst e Hin) as (err & [=] & _).
    + destruct (Hsecond e Hin) as (err & [=] & _).
Qed.

(** X1: whenever the remote answers a call of a MediaManager operation with
    an error, the operation returns an error that has it as a cause
    ([errors.Is] finds it). *)
Theorem MediaManager_errors_keep_cause (w : W) :
  (∀ id, keeps_cause t (GetMediaUrlById id) w) ∧
  (∀ id, keeps_cause t (DeleteMedia id) w) ∧
  (∀ b phoneNumberId file filename mimeType,
     keeps_cause t (UploadMedia b phoneNumberId file filename mimeType) w) ∧
  (∀ appID fileLength fileType,
     keeps_cause t (CreateResumableUploadSession appID fileLength fileType) w) ∧
  (∀ sessionID fileData fileOffset,
     keeps_cause t (UploadResumableMedia sessionID fileData fileOffset) w) ∧
  (∀ appID fileData fileType,
     keeps_cause t (UploadMediaForTemplate appID fileData fileType) w).
Proof.
  repeat split; intros.
  - apply GetMediaUrlById_keeps_cause.
  - apply DeleteMedia_keeps_cause.
  - apply UploadMedia_keeps_cause.
  - apply CreateResumableUploadSession_keeps_cause.
  - apply UploadResumableMedia_keeps_cause.
  - apply UploadMediaForTemplate_keeps_cause.
Qed.



End ErrorCauses.

Section MediaManagerMore.
Context `{Config}.
Context `{!Unmarshal MediaMetadata.t} `{!Unmarshal DeleteSuccessResponse.t}.
Context `{!Unmarshal UploadMediaResult.t}.
Context {W : Type} (t : Remote W).

(** X3: once the form is built, UploadMedia returns the id the remote
    answered when it is not empty, an error that quotes the raw response
    when the answer decodes to an empty id, an error that wraps the
    transport error when the POST failed, and never an empty id without an
    error. *)
Theorem UploadMedia_response (b phoneNumberId : string) (file : Reader)
    (filename mimeType : string) (writer : Writer) (w : W) :
  UploadMedia_form b file filename mimeType = Ok writer →
  let post :=
    RequestMultipart "POST" (phoneNumberId +:+ "/media") (Writer_Bytes writer)
      (FormDataContentType writer) in
  let out := run t (UploadMedia b phoneNumberId file filename mimeType) w in
  (∀ raw e w', t post w = ((raw, Some e), w') →
     out = (("", Some (Errorf_w "error uploading media: " e)), w')) ∧
  (∀ raw res w', t post w = ((raw, None), w') →
     json_Unmarshal (bytes_of_string raw) = Ok res →
     UploadMediaResult.ID res = "" →
     out = (("", Some (errorString ("no media id in response: " +:+ raw))), w')) ∧
  (∀ raw res w', t post w = ((raw, None), w') →
     json_Unmarshal (bytes_of_string raw) = Ok res →
     UploadMediaResult.ID res ≠ "" →
     out = ((UploadMediaResult.ID res, None), w')) ∧
  (¬ failed out.1 → out.1.1 ≠ "").
Proof.
  intros Hform. cbv zeta. unfold UploadMedia. rewrite Hform. simpl.
  change (Join2 phoneNumberId "media") with (phoneNumberId +:+ "/media").
  unfold MethodPost.
  split; [| split; [| split]].
  - intros raw e w' Hpost. rewrite Hpost. reflexivity.
  - intros raw res w' Hpost Hdec Hid. rewrite Hpost. simpl. rewrite Hdec.
    destruct (decide _); [reflexivity | contradiction].
  - intros raw res w' Hpost Hdec Hid. rewrite Hpost. simpl. rewrite Hdec.
    destruct (decide _); [contradiction | reflexivity].
  - destruct (t _ w) as [[raw [err | ]] w']; simpl; [errors_fail |].
    destruct (json_Unmarshal _) as [res | err]; simpl; [| errors_fail].
    destruct (decide _) as [He | Hne]; simpl; [errors_fail | auto].
Qed.


(** X13: UploadMedia sends the bytes of the file as they are: the body of
    the form is a preamble that depends on the boundary, the file name and
    the MIME type alone, then the bytes read from the file, then the closing
    delimiter of the boundary. *)
Theorem UploadMedia_body_layout (b filename mimeType : string) :
  ∃ preamble : bytes,
    ∀ (file : Reader) (writer : Writer),
      UploadMedia_form b file filename mimeType = Ok writer →
      Writer_Bytes writer = preamble ++ rd_data file ++ closing_delimiter b ∧
      FormDataContentType writer
        = "multipart/form-data; boundary="
          +:+ (if needs_quotes b then quote +:+ b +:+ quote else b).
Proof.
  exists (bytes_of_string
            ("--" +:+ b +:+ CRLF
             +:+ header_lines
                   (Header_Set "Content-Disposition"
                      ("form-data; name=" +:+ quote +:+ "messaging_product" +:+ quote) ∅)
             +:+ CRLF)
          ++ bytes_of_string "whatsapp"
          ++ bytes_of_string
               ((CRLF +:+ "--") +:+ b +:+ CRLF
                +:+ header_lines
                      (Header_Set "Content-Type" mimeType
                         (Header_Set "Content-Disposition"
                            ("form-data; name=" +:+ quote +:+ "file" +:+ quote
                             +:+ "; filename=" +:+ quote +:+ filepath_Base filename
                             +:+ quote) ∅))
                +:+ CRLF)).
  intros file writer Hform.
  destruct (rd_err file) as [e | ] eqn:Hread.
  { exfalso. revert Hform.
    unfold UploadMedia_form, WriteField, CreateFormField, CreatePart, io_Copy,
      Part_Write, Writer_Close, NewWriter.
    simpl. rewrite Hread. discriminate. }
  rewrite (UploadMedia_form_readable b file filename mimeType Hread) in Hform.
  apply (f_equal (λ r, match r with Ok q => q | Err _ => writer end)) in Hform.
  subst writer. split; [| reflexivity].
  unfold Writer_Bytes. cbn [render_parts parts boundary closed].
  unfold render_part. cbn [p_content p_header].
  rewrite app_nil_r, <- !app_assoc. reflexivity.
Qed.

End MediaManagerMore.

Section AssetFormMore.
Context `{!Unmarshal UploadFlowJSONResponse.t}.
Context {W : Type} (t : Remote W).

(** X5: what UploadFlowJSON posts can be read back: for a boundary that
    needs no quotes, the Content-Type names the boundary, and stripping from
    the body the framing that this boundary gives leaves the document, byte
    for byte, whatever the document holds. *)
Theorem UploadFlowJSON_wire_round_trip (b flowID flowJSON : string) (w : W) :
  needs_quotes b = false →
  ∃ body contentType,
    calls t (part_001.UploadFlowJSON b flowID flowJSON) w
      = [RequestMultipart "POST" (flowID +:+ "/assets") body contentType] ∧
    strip_prefix "multipart/form-data; boundary=" contentType = Some b ∧
    string_of_bytes (file_of_asset_form b body) = flowJSON.
Proof.
  intros Hplain.
  destruct (UploadFlowJSON_multipart t b flowID flowJSON w)
    as (writer & Hform & _ & _ & Hcalls).
  exists (Writer_Bytes writer), (FormDataContentType writer).
  split; [exact Hcalls |].
  assert (Hb : boundary writer = b).
  { rewrite UploadFlowJSON_form_parts in Hform.
    apply (f_equal (λ r, match r with Ok q => boundary q | Err _ => b end)) in Hform.
    symmetry. exact Hform. }
  split.
  - unfold FormDataContentType. rewrite Hb, Hplain. apply strip_prefix_app.
  - rewrite (file_of_asset_form_spec b flowJSON writer Hform).
    apply string_of_list_byte_of_string.
Qed.

End AssetFormMore.

Section FlowManagerMore.
Context {PaginationMeta : Type}.
Context `{!Marshal CreateFlowRequest.t} `{!Marshal UpdateFlowRequest.t}.
Context `{!Marshal UploadFlowJSONRequest.t}.
Context `{!Unmarshal CreateFlowResponse.t} `{!Unmarshal UploadFlowJSONResponse.t}.
Context `{!Unmarshal (FlowsListResponse.t PaginationMeta)}.
Context {W : Type} (t : Remote W).

Ltac xor_crunch :=
  unfold result_xor_error; simpl;
  repeat first [ step_remote t | split_match ];
  simpl; split; intros; congruence.

(** X6: Create, FetchAll and both asset uploads return a result exactly when
    they return no error: never both, never neither. *)
Theorem FlowManager_result_xor_error (m : FlowManager.t) (w : W) :
  (∀ req, result_xor_error (run t (FlowManager.Create m req) w).1) ∧
  result_xor_error (run t (FlowManager.FetchAll m) w).1 ∧
  (∀ b flowID flowJSON,
     result_xor_error (run t (part_001.UploadFlowJSON b flowID flowJSON) w).1) ∧
  (∀ flowID flowJSON,
     result_xor_error (run t (flow_manager.UploadFlowJSON flowID flowJSON) w).1).
Proof.
  split; [| split; [| split]].
  - intros req. unfold FlowManager.Create. xor_crunch.
  - unfold FlowManager.FetchAll. xor_crunch.
  - intros b flowID flowJSON. unfold part_001.UploadFlowJSON.
    rewrite UploadFlowJSON_form_parts. xor_crunch.
  - intros flowID flowJSON. unfold flow_manager.UploadFlowJSON. xor_crunch.
Qed.

(** X7: Create and UploadFlowJSON do not turn a rejection by the remote into
    an error: a response that decodes is returned as it is, with no error,
    also when its success flag is false and it lists validation errors. *)
Theorem FlowManager_returns_rejection (m : FlowManager.t) (w : W) :
  (∀ req jsonBody raw w' res,
     json_Marshal req = Ok jsonBody →
     t (Execute (mkApiRequest (FlowManager.businessAccountId m +:+ "/flows") "POST"
                   (string_of_bytes jsonBody))) w = ((raw, None), w') →
     json_Unmarshal (bytes_of_string raw) = Ok res →
     run t (FlowManager.Create m req) w = ((Some res, None), w')) ∧
  (∀ b flowID flowJSON writer raw w' res,
     part_001.UploadFlowJSON_form b flowJSON = Ok writer →
     t (RequestMultipart "POST" (flowID +:+ "/assets") (Writer_Bytes writer)
          (FormDataContentType writer)) w = ((raw, None), w') →
     json_Unmarshal (bytes_of_string raw) = Ok res →
     run t (part_001.UploadFlowJSON b flowID flowJSON) w = ((Some res, None), w')).
Proof.
  split.
  - intros req jsonBody raw w' res Hbody Hexec Hdec.
    unfold FlowManager.Create. rewrite Hbody. simpl.
    unfold NewApiRequest, SetBody, MethodPost. simpl.
    change (Join2 (FlowManager.businessAccountId m) "flows")
      with (FlowManager.businessAccountId m +:+ "/flows").
    rewrite Hexec. simpl. rewrite Hdec. reflexivity.
  - intros b flowID flowJSON writer raw w' res Hform Hpost Hdec.
    unfold part_001.UploadFlowJSON. rewrite Hform. simpl.
    change (Join2 flowID "assets") with (flowID +:+ "/assets").
    unfold MethodPost. rewrite Hpost. simpl. rewrite Hdec. reflexivity.
Qed.

(** X8: Publish, Deprecate, Delete and Update never read the response: each
    places one call (a POST of "<flowID>/publish", a POST of
    "<flowID>/deprecate", a DELETE of the flow id, a POST of the flow id
    with the encoded request) and returns the error of that call as it is,
    so it returns no error whenever the call itself did not fail, whatever
    the response says. *)
Theorem FlowManager_actions (m : FlowManager.t) (flowID : string) (w : W) :
  let outcome (p : Prog (option error)) (c : Call) (err : option error) :=
    calls t p w = [c] ∧ (run t p w).1 = err in
  outcome (FlowManager.Publish m flowID)
    (Execute (mkApiRequest (flowID +:+ "/publish") "POST" ""))
    (t (Execute (mkApiRequest (flowID +:+ "/publish") "POST" "")) w).1.2 ∧
  outcome (FlowManager.Deprecate m flowID)
    (Execute (mkApiRequest (flowID +:+ "/deprecate") "POST" ""))
    (t (Execute (mkApiRequest (flowID +:+ "/deprecate") "POST" "")) w).1.2 ∧
  outcome (FlowManager.Delete m flowID)
    (Execute (mkApiRequest flowID "DELETE" ""))
    (t (Execute (mkApiRequest flowID "DELETE" "")) w).1.2 ∧
  (∀ req jsonBody,
     json_Marshal req = Ok jsonBody →
     outcome (FlowManager.Update m flowID req)
       (Execute (mkApiRequest flowID "POST" (string_of_bytes jsonBody)))
       (t (Execute (mkApiRequest flowID "POST" (string_of_bytes jsonBody))) w).1.2).
Proof.
  cbv zeta. split; [| split; [| split]].
  - unfold FlowManager.Publish. simpl.
    change (NewApiRequest (Join2 flowID "publish") MethodPost)
      with (mkApiRequest (flowID +:+ "/publish") "POST" "").
    destruct (t _ w) as [[raw err] w']. split; reflexivity.
  - unfold FlowManager.Deprecate. simpl.
    change (NewApiRequest (Join2 flowID "deprecate") MethodPost)
      with (mkApiRequest (flowID +:+ "/deprecate") "POST" "").
    destruct (t _ w) as [[raw err] w']. split; reflexivity.
  - unfold FlowManager.Delete. simpl.
    change (NewApiRequest flowID MethodDelete) with (mkApiRequest flowID "DELETE" "").
    destruct (t _ w) as [[raw err] w']. split; reflexivity.
  - intros req jsonBody Hbody. unfold FlowManager.Update. rewrite Hbody. simpl.
    change (SetBody (string_of_bytes jsonBody) (NewApiRequest flowID MethodPost))
      with (mkApiRequest flowID "POST" (string_of_bytes jsonBody)).
    destruct (t _ w) as [[raw err] w']. split; reflexivity.
Qed.

(** X9: whenever the remote answers a call of Create, FetchAll, GetFlowJSON
    or either asset upload with an error, the operation returns an error
    that has it as a cause ([errors.Is] finds it). *)
Theorem FlowManager_errors_keep_cause (m : FlowManager.t) (w : W) :
  (∀ req, keeps_cause t (FlowManager.Create m req) w) ∧
  keeps_cause t (FlowManager.FetchAll m) w ∧
  (∀ flowID, keeps_cause t (part_001.GetFlowJSON flowID) w) ∧
  (∀ b flowID flowJSON, keeps_cause t (part_001.UploadFlowJSON b flowID flowJSON) w) ∧
  (∀ flowID flowJSON, keeps_cause t (flow_manager.UploadFlowJSON flowID flowJSON) w).
Proof.
  split; [| split; [| split; [| split]]].
  - intros req. unfold FlowManager.Create. cause_one_call t.
  - unfold FlowManager.FetchAll. cause_one_call t.
  - intros flowID. unfold part_001.GetFlowJSON. cause_one_call t.
  - intros b flowID flowJSON. unfold part_001.UploadFlowJSON.
    rewrite UploadFlowJSON_form_parts. cause_one_call t.
  - intros flowID flowJSON. unfold flow_manager.UploadFlowJSON. cause_one_call t.
Qed.

End FlowManagerMore.

Section FlowMessageMore.
Import components.
Context `{Components}.

(** X10: NewFlowMessage fails exactly when the validator rejects the
    parameters or both FlowID and FlowName are empty, and it returns a
    message exactly when it returns no error; the error for rejected
    parameters is a plain message from which the validator's error cannot
    be unwrapped. *)
Theorem NewFlowMessage_error_iff (params : FlowMessageParams.t) :
  let out := NewFlowMessage params in
  (failed out ↔
     validate_Struct params ≠ None ∨
     (FlowMessageParams.FlowID params = "" ∧ FlowMessageParams.FlowName params = "")) ∧
  result_xor_error out ∧
  (∀ e, validate_Struct params = Some e →
     out = (None, Some (errorString ("error validating params: " +:+ Error e))) ∧
     ∀ err, out.2 = Some err → Unwrap err = None).
Proof.
  cbv zeta. unfold NewFlowMessage, failed, result_xor_error.
  destruct (validate_Struct params) as [e | ] eqn:Hval; simpl.
  { split; [| split].
    - split; [intros _; left; congruence | intros _; congruence].
    - split; intros; congruence.
    - intros e' [= <-]. split; [reflexivity |]. intros err [= <-]. reflexivity. }
  destruct (decide (_ ∧ _)) as [Hboth | Hsome]; simpl.
  { split; [| split].
    - split; [intros _; right; exact Hboth | intros _; congruence].
    - split; intros; congruence.
    - intros e [=]. }
  destruct (decide (FlowMessageParams.FlowID params ≠ "")); simpl.
  - split; [| split].
    + split; [intros Hf; exfalso; apply Hf; reflexivity |].
      intros [Hv | Hboth]; [congruence | contradiction].
    + split; intros; congruence.
    + intros e [=].
  - split; [| split].
    + split; [intros Hf; exfalso; apply Hf; reflexivity |].
      intros [Hv | Hboth]; [congruence | contradiction].
    + split; intros; congruence.
    + intros e [=].
Qed.

(** X11: a message NewFlowMessage returns names its flow by id or by name,
    never by both: a given FlowID wins and the FlowName is dropped; its
    protocol version is the given one, or "3" when none is given, so never
    empty; it carries the body text and the button text and has no header,
    footer, token, mode or action payload yet. *)
Theorem NewFlowMessage_message (params : FlowMessageParams.t) (m : FlowMessage.t) :
  NewFlowMessage params = (Some m, None) →
  let p := FlowMessageAction.Parameters (FlowMessage.Action m) in
  one_flow_reference m ∧
  (FlowMessageParams.FlowID params ≠ "" →
   FlowMessageActionParams.FlowID p = FlowMessageParams.FlowID params ∧
   FlowMessageActionParams.FlowName p = "") ∧
  (FlowMessageParams.FlowID params = "" →
   FlowMessageActionParams.FlowName p = FlowMessageParams.FlowName params) ∧
  (FlowMessageParams.FlowMessageVersion params ≠ "" →
   FlowMessageActionParams.FlowMessageVersion p
     = FlowMessageParams.FlowMessageVersion params) ∧
  (FlowMessageParams.FlowMessageVersion params = "" →
   FlowMessageActionParams.FlowMessageVersion p = "3") ∧
  FlowMessageActionParams.FlowMessageVersion p ≠ "" ∧
  FlowMessage.Type_ m = InteractiveMessageTypeFlow ∧
  FlowMessageAction.Name (FlowMessage.Action m) = "flow" ∧
  FlowMessageBody.Text (FlowMessage.Body m) = FlowMessageParams.BodyText params ∧
  FlowMessageActionParams.FlowCTA p = FlowMessageParams.FlowCTA params ∧
  FlowMessage.Header m = None ∧ FlowMessage.Footer m = None ∧
  FlowMessageActionParams.FlowToken p = "" ∧ FlowMessageActionParams.Mode p = "" ∧
  FlowMessageActionParams.FlowAction p = "" ∧
  FlowMessageActionParams.FlowActionPayload p = None.
Proof.
  unfold NewFlowMessage, one_flow_reference.
  destruct (validate_Struct params) as [e | ]; [discriminate |].
  destruct (decide (_ ∧ _)) as [Hboth | Hsome]; [discriminate |].
  assert (Hversion : ∀ v : string,
            (if decide (v = "") then "3" else v) ≠ ""
            ∧ (v ≠ "" → (if decide (v = "") then "3" else v) = v)
            ∧ (v = "" → (if decide (v = "") then "3" else v) = "3")).
  { intros v. destruct (decide (v = "")) as [-> | Hv].
    - repeat split; [discriminate | contradiction].
    - repeat split; [exact Hv | contradiction]. }
  destruct (Hversion (FlowMessageParams.FlowMessageVersion params)) as (Hv1 & Hv2 & Hv3).
  destruct (decide (FlowMessageParams.FlowID params ≠ "")) as [Hid | Hid];
    intros Hm; apply (f_equal (λ o, default m o.1)) in Hm; simpl in Hm; subst m; simpl.
  - repeat split; auto; contradiction.
  - apply dec_stable in Hid.
    assert (Hname : FlowMessageParams.FlowName params ≠ "").
    { intros Hname. apply Hsome. split; assumption. }
    repeat split; auto; contradiction.
Qed.

(** X12: no sequence of the setters SetHeader, SetFooter, SetFlowToken,
    SetMode and SetFlowAction changes what a message was made from: its
    type, body text, action name, protocol version, flow id, flow name and
    button text stay, and a message that names one flow keeps naming it. *)
Theorem setters_keep_essentials (m : FlowMessage.t) (ss : list setter) :
  essentials (foldl apply_setter m ss) = essentials m ∧
  (one_flow_reference m → one_flow_reference (foldl apply_setter m ss)).
Proof.
  assert (Hstep : ∀ m0 s, essentials (apply_setter m0 s) = essentials m0).
  { intros m0 s. destruct s; reflexivity. }
  assert (Hall : essentials (foldl apply_setter m ss) = essentials m).
  { revert m. induction ss as [| s ss IH]; intros m; simpl; [reflexivity |].
    rewrite IH. apply Hstep. }
  split; [exact Hall |].
  unfold one_flow_reference. unfold essentials in Hall.
  injection Hall as _ _ _ _ Hid Hname _.
  rewrite Hid, Hname. auto.
Qed.

End FlowMessageMore.

#[local] Existing Instance mock_config.
#[local] Existing Instance mock_Unmarshal_MediaMetadata.
#[local] Existing Instance mock_Unmarshal_DeleteSuccessResponse.
#[local] Existing Instance mock_Unmarshal_UploadMediaResult.
#[local] Existing Instance mock_Unmarshal_ResumableUploadSession.
#[local] Existing Instance mock_Unmarshal_ResumableUploadResult.
#[local] Existing Instance mock_Unmarshal_UploadFlowJSONResponse.
#[local] Existing Instance mock_Unmarshal_CreateFlowResponse.
#[local] Existing Instance mock_Marshal_map.
#[local] Existing Instance mock_Marshal_UploadFlowJSONRequest.

(** C2, on src/manager/flow_manager.go: for the flow "F1" and the document
    "{}", UploadFlowJSON places one call, an Execute of a POST to
    "F1/assets" whose body is a JSON object that starts with the field
    name; no multipart form is posted. *)
Theorem flow_manager_UploadFlowJSON_sends_json :
  ∃ jsonBody : bytes,
    json_Marshal (UploadFlowJSONRequest.mk "flow.json" "FLOW_JSON" "{}") = Ok jsonBody ∧
    strip_prefix ("{" +:+ quote +:+ "name" +:+ quote +:+ ":")
      (string_of_bytes jsonBody) ≠ None ∧
    calls scenario (flow_manager.UploadFlowJSON "F1" "{}") 0
    = [Execute (mkApiRequest "F1/assets" "POST" (string_of_bytes jsonBody))] ∧
    Forall (λ c, match c with RequestMultipart _ _ _ _ => False | _ => True end)
      (calls scenario (flow_manager.UploadFlowJSON "F1" "{}") 0).
Proof.
  eexists. split; [reflexivity |].
  split; [vm_compute; discriminate |].
  rewrite flow_manager_UploadFlowJSON_calls.
  split; [reflexivity |].
  repeat constructor.
Qed.

(** The scenario of the spec: a payload of 1024 bytes of type image/png for
    the app "A1" gets the handle "4::abc", by the convenience call as by the
    manual sequence. *)
Example UploadMediaForTemplate_scenario :
  (run scenario (UploadMediaForTemplate "A1" (replicate 1024 x00) "image/png") 0).1
    = ("4::abc", None) ∧
  (run scenario (manual_two_step "A1" (replicate 1024 x00) "image/png") 0).1
    = ("4::abc", None).
Proof. split; vm_compute; reflexivity. Qed.

(** ** The claims at concrete inputs *)

Lemma GetMediaUrlById_url_witness :
  run scenario (GetMediaUrlById "M2") 0
    = (("", Some (errorString "no media url found in response: {}")), 1) ∧
  run scenario (GetMediaUrlById "M1") 0 = (("https://cdn.example/m1", None), 1).
Proof.
  destruct (GetMediaUrlById_url scenario "M2" 0) as (Habsent & _ & _).
  destruct (GetMediaUrlById_url scenario "M1" 0) as (_ & Hpresent & _).
  split.
  - apply (Habsent "{}" 1 (MediaMetadata.mk "" "" "" "" 0 "")); reflexivity.
  - apply (Hpresent (json_object1 "url" "https://cdn.example/m1") 1
             (MediaMetadata.mk "" "https://cdn.example/m1" "" "" 0 ""));
      [reflexivity | reflexivity | discriminate].
Defined.

Lemma DeleteMedia_success_flag_witness :
  run scenario (DeleteMedia "M2") 0
  = (("", Some (errorString
                  ("media deletion failed or returned success=false: "
                   +:+ json_flag "success" false))), 1).
Proof.
  destruct (DeleteMedia_success_flag scenario "M2" 0) as (Hrejected & _).
  apply (Hrejected (json_flag "success" false) 1 (DeleteSuccessResponse.mk false));
    reflexivity.
Defined.

(** C6, as stated, fails twice: at the boundary "B0", the three bytes "PNG",
    the file name "/tmp/a/pic.png" and the MIME type "image/png" the form
    UploadMedia builds does not have three parts; and for a file whose
    reading fails UploadMedia places no call at all. *)
Lemma UploadMedia_three_parts_counterexample :
  (∃ writer,
     UploadMedia_form "B0" (bytes_NewReader (bytes_of_string "PNG"))
       "/tmp/a/pic.png" "image/png" = Ok writer ∧
     length (parts writer) ≠ 3) ∧
  calls scenario
    (UploadMedia "B0" "P1" broken_file "/tmp/a/pic.png" "image/png") 0 = [].
Proof.
  split.
  - eexists. split; [apply UploadMedia_form_readable; reflexivity |].
    simpl. lia.
  - eapply UploadMedia_unreadable. reflexivity.
Qed.

Lemma UploadMedia_two_part_form_witness :
  ∃ writer,
    UploadMedia_form "B0" (bytes_NewReader (bytes_of_string "PNG")) "/tmp/a/pic.png"
      "image/png" = Ok writer ∧
    length (parts writer) = 2 ∧
    calls scenario
      (UploadMedia "B0" "P1" (bytes_NewReader (bytes_of_string "PNG")) "/tmp/a/pic.png"
         "image/png") 0
    = [RequestMultipart "POST" "P1/media" (Writer_Bytes writer)
         (FormDataContentType writer)].
Proof.
  destruct (UploadMedia_two_part_form scenario "B0" "P1"
              (bytes_NewReader (bytes_of_string "PNG")) "/tmp/a/pic.png" "image/png" 0
              eq_refl)
    as (product & payload & Hform & _ & _ & _ & _ & _ & _ & _ & Hcalls).
  exists (mkWriter "B0" [product; payload] true).
  split; [exact Hform |]. split; [reflexivity | exact Hcalls].
Defined.

Lemma UploadResumableMedia_request_shape_witness :
  ∃ req,
    UploadResumableMedia_request "sess_123" (bytes_of_string "PNG") 0 = Ok req ∧
    req_URL req = "https://graph.facebook.com/v21.0/sess_123" ∧
    req_Body req = bytes_of_string "PNG" ∧
    Header_Get "Authorization" (req_Header req) = "OAuth TOKEN" ∧
    Header_Get "file_offset" (req_Header req) = "0".
Proof.
  set (req :=
         Request_Header_Set "file_offset" "0"
           (Request_Header_Set "Authorization" "OAuth TOKEN"
              (mkHttpRequest "POST" "https://graph.facebook.com/v21.0/sess_123" ∅
                 (bytes_of_string "PNG")))).
  assert (Hreq : UploadResumableMedia_request "sess_123" (bytes_of_string "PNG") 0
                 = Ok req) by reflexivity.
  exists req. split; [exact Hreq |].
  destruct (UploadResumableMedia_request_shape scenario "sess_123"
              (bytes_of_string "PNG") 0 req Hreq)
    as (_ & Hurl & Hbody & Hauth & Hoffset & _ & _).
  split; [exact Hurl |]. split; [exact Hbody |]. split; [exact Hauth | exact Hoffset].
Defined.

Lemma UploadResumableMedia_error_iff_witness :
  (run scenario (UploadResumableMedia "sess_404" (bytes_of_string "PNG") 0) 0).1
  = ("", Some (errorString "upload failed with status 404: not found")).
Proof.
  destruct (UploadResumableMedia_error_iff scenario "sess_404" (bytes_of_string "PNG") 0 0)
    as (_ & Hstatus & _).
  apply (Hstatus 404%Z (bytes_of_string "not found")).
  - eexists _, _. split; [reflexivity |]. split; [reflexivity |]. split; reflexivity.
  - lia.
Defined.

Lemma CreateResumableUploadSession_contract_witness :
  ∃ request,
    calls scenario (CreateResumableUploadSession "A1" 1024 "image/png") 0 = [request] ∧
    run scenario (CreateResumableUploadSession "A1" 1024 "image/png") 0
    = (("sess_123", None), 1).
Proof.
  destruct (CreateResumableUploadSession_contract scenario "A1" 1024 "image/png" 0)
    as (_ & _ & _ & _ & Hsent).
  destruct (Hsent _ eq_refl) as (Hcalls & Hanswer).
  eexists. split; [exact Hcalls |].
  apply (Hanswer (json_object1 "id" "sess_123") 1 (ResumableUploadSession.mk "sess_123"));
    [reflexivity | reflexivity | discriminate].
Defined.

Lemma GetFlowJSON_after_UploadFlowJSON_witness :
  ∃ w2,
    run echo (part_001.GetFlowJSON "F1")
      (<["F1/assets" := json_flag "version" true]> ∅)
    = ((json_flag "version" true, None), w2).
Proof.
  destruct (GetFlowJSON_after_UploadFlowJSON echo "B0" "F1" (json_flag "version" true)
              _ (UploadFlowJSONResponse.mk true []) ∅
              (<["F1/assets" := json_flag "version" true]> ∅)
              (UploadFlowJSON_form_parts "B0" (json_flag "version" true)))
    as (Hround & _).
  - eapply echo_echoes; [| apply UploadFlowJSON_form_parts]. reflexivity.
  - vm_compute. reflexivity.
  - exact Hround.
Defined.

(** ** The further properties at concrete inputs *)

#[local] Existing Instance mock_components.
#[local] Existing Instance mock_Marshal_CreateFlowRequest.
#[local] Existing Instance mock_Marshal_UpdateFlowRequest.
#[local] Existing Instance mock_Unmarshal_FlowsListResponse.

Lemma MediaManager_errors_keep_cause_witness :
  ∃ err,
    (run scenario (CreateResumableUploadSession "A9" 3 "image/png") 0).1.2 = Some err ∧
    Is err (errorString "unsupported request").
Proof.
  destruct (MediaManager_errors_keep_cause scenario 0) as (_ & _ & _ & Hcreate & _).
  apply (Hcreate "A9" 3%Z "image/png").
  assert (Herrs : remote_errors scenario (CreateResumableUploadSession "A9" 3 "image/png") 0
                  = [errorString "unsupported request"]) by reflexivity.
  rewrite Herrs. constructor.
Defined.


Lemma UploadMedia_response_witness :
  run scenario
    (UploadMedia "B0" "P1" (bytes_NewReader (bytes_of_string "PNG")) "/tmp/a/pic.png"
       "image/png") 0
  = (("media_1", None), 1).
Proof.
  destruct (UploadMedia_response scenario "B0" "P1"
              (bytes_NewReader (bytes_of_string "PNG")) "/tmp/a/pic.png" "image/png" _ 0
              (UploadMedia_form_readable "B0" (bytes_NewReader (bytes_of_string "PNG"))
                 "/tmp/a/pic.png" "image/png" eq_refl))
    as (_ & _ & Hid & _).
  apply (Hid (json_object1 "id" "media_1") (UploadMediaResult.mk "media_1") 1);
    [reflexivity | reflexivity | discriminate].
Defined.

Lemma UploadFlowJSON_wire_round_trip_witness :
  ∃ body contentType,
    calls echo (part_001.UploadFlowJSON "B0" "F1" (json_flag "version" true)) ∅
      = [RequestMultipart "POST" "F1/assets" body contentType] ∧
    strip_prefix "multipart/form-data; boundary=" contentType = Some "B0" ∧
    string_of_bytes (file_of_asset_form "B0" body) = json_flag "version" true.
Proof.
  apply (UploadFlowJSON_wire_round_trip echo "B0" "F1" (json_flag "version" true) ∅).
  reflexivity.
Defined.

Lemma FlowManager_returns_rejection_witness :
  run rejecting (part_001.UploadFlowJSON "B0" "F1" "{") 0
  = ((Some (UploadFlowJSONResponse.mk false []), None), 1).
Proof.
  destruct (FlowManager_returns_rejection rejecting (FlowManager.mk "W1" "TOKEN") 0)
    as (_ & Hupload).
  apply (Hupload "B0" "F1" "{" _ (json_flag "success" false) 1
           (UploadFlowJSONResponse.mk false []) (UploadFlowJSON_form_parts "B0" "{"));
    reflexivity.
Defined.

Lemma FlowManager_actions_witness :
  (run scenario
     (FlowManager.Update (FlowManager.mk "W1" "TOKEN") "F1"
        (UpdateFlowRequest.mk "renamed" [] "")) 0).1
  = Some (errorString "unsupported request") ∧
  (run rejecting (FlowManager.Publish (FlowManager.mk "W1" "TOKEN") "F1") 0).1 = None.
Proof.
  destruct (FlowManager_actions scenario (FlowManager.mk "W1" "TOKEN") "F1" 0)
    as (_ & _ & _ & Hupdate).
  destruct (FlowManager_actions rejecting (FlowManager.mk "W1" "TOKEN") "F1" 0)
    as ((_ & Hpublish) & _).
  split.
  - destruct (Hupdate (UpdateFlowRequest.mk "renamed" [] "") _ eq_refl) as (_ & Hrun).
    exact Hrun.
  - exact Hpublish.
Defined.

Lemma FlowManager_errors_keep_cause_witness :
  ∃ err,
    (run scenario (part_001.UploadFlowJSON "B0" "F1" "{}") 0).1.2 = Some err ∧
    Is err (errorString "unsupported request").
Proof.
  destruct (FlowManager_errors_keep_cause (PaginationMeta:=unit) scenario
              (FlowManager.mk "W1" "TOKEN") 0) as (_ & _ & _ & Hupload & _).
  apply (Hupload "B0" "F1" "{}").
  assert (Herrs : remote_errors scenario (part_001.UploadFlowJSON "B0" "F1" "{}") 0
                  = [errorString "unsupported request"]) by reflexivity.
  rewrite Herrs. constructor.
Defined.

Lemma NewFlowMessage_error_iff_witness :
  components.NewFlowMessage (components.FlowMessageParams.mk "" "F1" "" "Open" "")
  = (None,
     Some (errorString
             "error validating params: Field validation for 'BodyText' failed on the 'required' tag")).
Proof.
  destruct (NewFlowMessage_error_iff
              (components.FlowMessageParams.mk "" "F1" "" "Open" ""))
    as (_ & _ & Hrejected).
  destruct (Hrejected _ eq_refl) as (Hout & _). exact Hout.
Defined.

Lemma NewFlowMessage_message_witness :
  ∃ m,
    components.NewFlowMessage
      (components.FlowMessageParams.mk "Book a slot" "F1" "booking" "Open" "") = (Some m, None) ∧
    components.FlowMessageActionParams.FlowID
      (components.FlowMessageAction.Parameters (components.FlowMessage.Action m)) = "F1" ∧
    components.FlowMessageActionParams.FlowName
      (components.FlowMessageAction.Parameters (components.FlowMessage.Action m)) = "" ∧
    components.FlowMessageActionParams.FlowMessageVersion
      (components.FlowMessageAction.Parameters (components.FlowMessage.Action m)) = "3".
Proof.
  set (m :=
         components.FlowMessage.mk "flow" None
           (components.FlowMessageBody.mk "Book a slot") None
           (components.FlowMessageAction.mk "flow"
              (components.FlowMessageActionParams.mk "3" "F1" "" "Open" "" "" None ""))).
  assert (Hm : components.NewFlowMessage
                 (components.FlowMessageParams.mk "Book a slot" "F1" "booking" "Open" "")
               = (Some m, None)) by reflexivity.
  exists m. split; [exact Hm |].
  destruct (NewFlowMessage_message
              (components.FlowMessageParams.mk "Book a slot" "F1" "booking" "Open" "") m
              Hm) as (_ & Hid & _ & _ & Hversion & _).
  destruct (Hid ltac:(discriminate)) as (Hflow & Hname).
  split; [exact Hflow |]. split; [exact Hname | exact (Hversion eq_refl)].
Defined.

Lemma setters_keep_essentials_witness :
  components.one_flow_reference
    (components.SetFlowAction components.FlowActionDataExchange None
       (components.SetMode components.FlowMessageModeDraft
          (components.SetHeader "Welcome" booking_message))).
Proof.
  apply (proj2 (setters_keep_essentials booking_message
                  [components.CallSetHeader "Welcome";
                   components.CallSetMode components.FlowMessageModeDraft;
                   components.CallSetFlowAction components.FlowActionDataExchange None])).
  right. split; [reflexivity | discriminate].
Defined.

Lemma UploadMedia_body_layout_witness :
  ∃ preamble : bytes,
    Writer_Bytes
      (mkWriter "B0"
         [mkPart
            (Header_Set "Content-Disposition"
               ("form-data; name=" +:+ quote +:+ "messaging_product" +:+ quote) ∅)
            (bytes_of_string "whatsapp");
          mkPart
            (Header_Set "Content-Type" "image/png"
               (Header_Set "Content-Disposition"
                  ("form-data; name=" +:+ quote +:+ "file" +:+ quote +:+ "; filename="
                   +:+ quote +:+ "pic.png" +:+ quote) ∅))
            (bytes_of_string "PNG")]
         true)
    = preamble ++ bytes_of_string "PNG" ++ closing_delimiter "B0".
Proof.
  destruct (UploadMedia_body_layout "B0" "/tmp/a/pic.png" "image/png")
    as (preamble & Hlayout).
  exists preamble.
  exact (proj1 (Hlayout (bytes_NewReader (bytes_of_string "PNG")) _
                  (UploadMedia_form_readable "B0" (bytes_NewReader (bytes_of_string "PNG"))
                     "/tmp/a/pic.png" "image/png" eq_refl))).
Defined.
